(** * Aurora Studio: the text-to-speech job routes

    A shallow embedding of the three HTTP route handlers of the repository

      - [POST /api/tts]                (src/app/api/tts/route.ts)
      - [GET  /api/tts/[jobId]/audio]  (src/app/api/tts/[jobId]/audio/route.ts)
      - [GET  /api/tts/[jobId]]        (the status route)

    together with the part of the JavaScript semantics they rely on
    (truthiness, [typeof], [??], [String.prototype.trim], [Number(...)],
    [ArrayBuffer.prototype.slice]) and a model of the job registry the
    handlers import from [@/lib/ttsJobManager]. *)

From Stdlib Require Import ZArith List Floats String Ascii DecimalString DecimalN Sorted Lia.
From stdpp Require Import gmap strings list fin_maps.

#[local] Set Warnings "-register-all".

(* ===================================================================== *)
(** ** JavaScript strings                                                 *)
(* ===================================================================== *)

(** A JavaScript string is a sequence of UTF-16 code units; [.length]
    counts code units.  Property names, job identifiers and the literal
    messages of the handlers are kept as Rocq strings. *)
Definition code_unit : Type := N.
Definition jsstring : Type := list code_unit.

(** The code units of an ASCII literal. *)
Definition js (s : string) : jsstring :=
  List.map N_of_ascii (list_ascii_of_string s).

(** [s.length] *)
Definition js_length (s : jsstring) : Z := Z.of_nat (List.length s).

(** ECMAScript [WhiteSpace] and [LineTerminator] code points, the set
    stripped by [String.prototype.trim]; all of them are in the BMP. *)
Definition is_js_space (c : code_unit) : bool :=
  ((9 <=? c) && (c <=? 13) || (c =? 32) || (c =? 160) || (c =? 5760)
   || (8192 <=? c) && (c <=? 8202) || (c =? 8232) || (c =? 8233)
   || (c =? 8239) || (c =? 8287) || (c =? 12288) || (c =? 65279))%N.

Fixpoint trimStart (s : jsstring) : jsstring :=
  match s with
  | c :: rest => if is_js_space c then trimStart rest else s
  | [] => []
  end.

Definition trimEnd (s : jsstring) : jsstring := rev (trimStart (rev s)).

(** [s.trim()] *)
Definition trim (s : jsstring) : jsstring := trimEnd (trimStart s).

(* ===================================================================== *)
(** ** JavaScript values, as [request.json()] delivers them               *)
(* ===================================================================== *)

(** A parsed JSON document, plus [undefined], which is what reading an
    absent property yields.  A JSON object is a finite map from property
    names to values ([JSON.parse] keeps the last of duplicated keys). *)
Inductive JsValue : Type :=
| JUndefined
| JNull
| JBool (b : bool)
| JNumber (x : float)
| JString (s : jsstring)
| JArray (items : list JsValue)
| JObject (props : gmap string JsValue).

(** What a [throw] carries, as far as the [catch] blocks can tell:
    [error instanceof Error] with its [message], or any other value. *)
Inductive Thrown : Type :=
| ThrownError (message : string)
| ThrownOther.

(** Result of evaluating an expression that may throw. *)
Inductive Completion (A : Type) : Type :=
| Normal (a : A)
| Throw (e : Thrown).
Arguments Normal {A} a.
Arguments Throw {A} e.

Definition is_nan (x : float) : bool := negb (PrimFloat.eqb x x).

(** [!!v] *)
Definition truthy (v : JsValue) : bool :=
  match v with
  | JUndefined | JNull => false
  | JBool b => b
  | JNumber x => negb (PrimFloat.eqb x 0 || is_nan x)
  | JString s => match s with [] => false | _ => true end
  | JArray _ | JObject _ => true
  end.

(** [typeof v] *)
Definition typeof (v : JsValue) : string :=
  match v with
  | JUndefined => "undefined"
  | JNull => "object"
  | JBool _ => "boolean"
  | JNumber _ => "number"
  | JString _ => "string"
  | JArray _ | JObject _ => "object"
  end.

(** [a ?? b] *)
Definition nullish (a b : JsValue) : JsValue :=
  match a with
  | JUndefined | JNull => b
  | _ => a
  end.

(** [v.name] for the five names the submit handler destructures
    ([text], [voiceId], [speed], [pitch], [emotion]): none of them is
    defined on a built-in prototype, so only an own property of an object
    can supply a value; every other value yields [undefined]. *)
Definition field (v : JsValue) (name : string) : JsValue :=
  match v with
  | JObject props => default JUndefined (props !! name)
  | _ => JUndefined
  end.

(** The message V8 gives the [TypeError] of a failed [ToPrimitive]. *)
Definition TypeError_ToPrimitive : Thrown :=
  ThrownError "Cannot convert object to primitive value".

(** The two number conversions of the language that the handler reaches
    only through [Number(...)]: the [StringToNumber] grammar and rounding,
    and [Number::toString]. They belong to the engine, not to the
    repository. *)
Class NumberConversions : Type := {
  StringToNumber : jsstring -> float;
  NumberToString : float -> jsstring
}.

Section Coercions.
Context `{NumberConversions}.

(** [ToString(v)] on a value that came out of [JSON.parse].
    - An array uses [Array.prototype.toString], that is [join(",")],
      where [undefined] and [null] elements print as the empty string.
    - A plain object uses [Object.prototype.toString] unless it has an
      own [toString] property; such a property holds JSON data, so it is
      not callable, [valueOf] (own and not callable, or inherited and
      returning the object itself) gives no primitive either, and
      [OrdinaryToPrimitive] throws a [TypeError]. *)
Fixpoint ToString (v : JsValue) : Completion jsstring :=
  match v with
  | JUndefined => Normal (js "undefined")
  | JNull => Normal (js "null")
  | JBool b => Normal (js (if b then "true" else "false"))
  | JNumber x => Normal (NumberToString x)
  | JString s => Normal s
  | JArray items =>
      (fix join (l : list JsValue) : Completion jsstring :=
         match l with
         | [] => Normal []
         | x :: rest =>
             match
               match x with
               | JUndefined | JNull => Normal []
               | _ => ToString x
               end
             with
             | Throw e => Throw e
             | Normal s =>
                 match rest with
                 | [] => Normal s
                 | _ :: _ =>
                     match join rest with
                     | Throw e => Throw e
                     | Normal r => Normal (s ++ 44%N :: r)
                     end
                 end
             end
         end) items
  | JObject props =>
      match props !! "toString" with
      | Some _ => Throw TypeError_ToPrimitive
      | None => Normal (js "[object Object]")
      end
  end.

(** [Number(v)], that is [ToNumber(v)]; objects and arrays go through
    [ToPrimitive] with hint number, which for JSON data ends in the same
    string as [ToString] or in the same [TypeError]. *)
Definition Number (v : JsValue) : Completion float :=
  match v with
  | JUndefined => Normal nan
  | JNull => Normal 0%float
  | JBool b => Normal (if b then 1%float else 0%float)
  | JNumber x => Normal x
  | JString s => Normal (StringToNumber s)
  | JArray _ | JObject _ =>
      match ToString v with
      | Throw e => Throw e
      | Normal s => Normal (StringToNumber s)
      end
  end.
End Coercions.

(* ===================================================================== *)
(** ** HTTP responses                                                     *)
(* ===================================================================== *)

(** The four values of a job's [status], as the client module spells
    them. *)
Inductive JobStatus : Type := queued | processing | completed | failed.

Definition JobStatus_eqb (a b : JobStatus) : bool :=
  match a, b with
  | queued, queued | processing, processing
  | completed, completed | failed, failed => true
  | _, _ => false
  end.

(** The object literal the status route serialises. *)
Record JobStatusView : Type := {
  view_status : JobStatus;
  view_progress : Z;
  view_error : option string;
  view_downloadUrl : option string;
  view_duration : option float
}.

Inductive ResponseBody : Type :=
| MessageBody (message : string)          (* [{ message }] *)
| JobIdBody (jobId : string)              (* [{ jobId }]   *)
| StatusBody (view : JobStatusView)
| BytesBody (bytes : list Byte.byte).

(** Status code, the headers the handler sets itself, and the body. *)
Record Response : Type := {
  resp_status : Z;
  resp_headers : list (string * string);
  resp_body : ResponseBody
}.

(** [NextResponse.json({ message }, { status })] *)
Definition json_message (status : Z) (message : string) : Response :=
  {| resp_status := status; resp_headers := []; resp_body := MessageBody message |}.

(** The job id a response hands to the caller, if any. *)
Definition response_jobId (r : Response) : option string :=
  match resp_body r with
  | JobIdBody jobId => Some jobId
  | _ => None
  end.

(** The audio bytes a response carries, if any. *)
Definition response_bytes (r : Response) : option (list Byte.byte) :=
  match resp_body r with
  | BytesBody bytes => Some bytes
  | _ => None
  end.

(* ===================================================================== *)
(** ** POST /api/tts                                                      *)
(* ===================================================================== *)

(** The argument of [createSynthesisJob]. *)
Record SynthesisRequest : Type := {
  text : jsstring;
  voiceId : jsstring;
  speed : float;
  pitch : float;
  emotion : jsstring
}.

(** A handler run: it either finishes with a result, or calls
    [createSynthesisJob] with a request and goes on with what the call
    produced (a job id, or an exception). *)
Inductive Handler (A : Type) : Type :=
| Done (a : A)
| CallCreate (req : SynthesisRequest) (k : Completion string -> Handler A).
Arguments Done {A} a.
Arguments CallCreate {A} req k.

(** Running a handler against an implementation of [createSynthesisJob]
    over a state [S]. *)
Fixpoint run {S A : Type}
    (createSynthesisJob : SynthesisRequest -> S -> Completion string * S)
    (h : Handler A) (s : S) : A * S :=
  match h with
  | Done a => (a, s)
  | CallCreate req k =>
      let '(r, s') := createSynthesisJob req s in
      run createSynthesisJob (k r) s'
  end.

(** The requests a handler passes to [createSynthesisJob], when the
    calls answer as [oracle] says. *)
Fixpoint calls {A : Type} (oracle : SynthesisRequest -> Completion string)
    (h : Handler A) : list SynthesisRequest :=
  match h with
  | Done _ => []
  | CallCreate req k => req :: calls oracle (k (oracle req))
  end.

Definition MAX_CHARACTERS : Z := 100000.

(** The [catch] block of the submit handler. *)
Definition POST_catch (error : Thrown) : Response :=
  json_message 500
    match error with
    | ThrownError message => message
    | ThrownOther => "Erro ao criar job de síntese"
    end.

(** What follows the call of [createSynthesisJob]. *)
Definition POST_created (r : Completion string) : Handler Response :=
  match r with
  | Normal jobId =>
      Done {| resp_status := 202; resp_headers := []; resp_body := JobIdBody jobId |}
  | Throw error => Done (POST_catch error)
  end.

Section Submit.
Context `{NumberConversions}.

(** [typeof v === "number" ? v : Number(v ?? dflt)] *)
Definition number_or (v : JsValue) (dflt : float) : Completion float :=
  match v with
  | JNumber x => Normal x
  | _ => Number (nullish v (JNumber dflt))
  end.

(** [typeof v === "string" ? v : "neutro"] *)
Definition emotion_or_default (v : JsValue) : jsstring :=
  match v with
  | JString e => e
  | _ => js "neutro"
  end.

(** The handler, from the result of [await request.json()] on. *)
Definition POST (request_json : Completion JsValue) : Handler Response :=
  match request_json with
  | Throw error => Done (POST_catch error)
  | Normal payload =>
      let payload := nullish payload (JObject ∅) in
      let text := field payload "text" in
      let voiceId := field payload "voiceId" in
      let speed := field payload "speed" in
      let pitch := field payload "pitch" in
      let emotion := field payload "emotion" in
      match text with
      | JString t =>
          (* [!text || !text.trim()], [typeof text] being "string" *)
          if negb (truthy text) || negb (truthy (JString (trim t))) then
            Done (json_message 400 "Texto inválido")
          else if (js_length t >? MAX_CHARACTERS)%Z then
            Done (json_message 400 "Limite de caracteres excedido")
          else
            match voiceId with
            | JString v =>
                if negb (truthy voiceId) then
                  Done (json_message 400 "Selecione uma voz")
                else
                  match number_or speed 1 with
                  | Throw error => Done (POST_catch error)
                  | Normal speed =>
                      match number_or pitch 0 with
                      | Throw error => Done (POST_catch error)
                      | Normal pitch =>
                          CallCreate
                            {| text := t;
                               voiceId := v;
                               speed := speed;
                               pitch := pitch;
                               emotion := emotion_or_default emotion |}
                            POST_created
                      end
                  end
            | _ => (* [typeof voiceId !== "string"] *)
                Done (json_message 400 "Selecione uma voz")
            end
      | _ => (* [typeof text !== "string"] *)
          Done (json_message 400 "Texto inválido")
      end
  end.
End Submit.

(* ===================================================================== *)
(** ** Buffers                                                            *)
(* ===================================================================== *)

(** A Node [Buffer] is a [Uint8Array]: a window of [byteLength] bytes at
    [byteOffset] into a backing [ArrayBuffer], which may be larger (Node
    pools small buffers).  The window always lies inside the backing
    store, so the store is kept as the bytes before the window, the
    window, and the bytes after it. *)
Record Buffer : Type := {
  bytes_before : list Byte.byte;
  contents : list Byte.byte;
  bytes_after : list Byte.byte
}.

(** [b.buffer] *)
Definition buffer (b : Buffer) : list Byte.byte :=
  bytes_before b ++ contents b ++ bytes_after b.

(** [b.byteOffset] *)
Definition byteOffset (b : Buffer) : Z := Z.of_nat (List.length (bytes_before b)).

(** [b.byteLength] *)
Definition byteLength (b : Buffer) : Z := Z.of_nat (List.length (contents b)).

(** [b.length]: the number of elements, each one byte wide. *)
Definition Buffer_length (b : Buffer) : Z := byteLength b.

(** [ab.slice(start, end)] of [ArrayBuffer.prototype]: negative indices
    count from the end, both are clamped to the length, and the bytes in
    between are copied. *)
Definition ArrayBuffer_slice (ab : list Byte.byte) (start final : Z) : list Byte.byte :=
  let len := Z.of_nat (List.length ab) in
  let first := if (start <? 0)%Z then Z.max (len + start) 0 else Z.min start len in
  let last := if (final <? 0)%Z then Z.max (len + final) 0 else Z.min final len in
  let newLen := Z.max (last - first) 0 in
  take (Z.to_nat newLen) (drop (Z.to_nat first) ab).

(** [String(n)] for an integer [n >= 0] below 10^21: its decimal digits. *)
Definition String_of_length (n : Z) : string :=
  NilZero.string_of_uint (N.to_uint (Z.to_N n)).

(* ===================================================================== *)
(** ** Jobs                                                               *)
(* ===================================================================== *)

(** Modelled from the spec: the [Job] record of [@/lib/ttsJobManager],
    whose declaration is not among the sources.  The routes read [id],
    [status], [progress], [error] and [duration]; section 3 of the spec
    adds the owned [audio] buffer. *)
Record Job : Type := {
  job_id : string;
  job_status : JobStatus;
  job_progress : Z;
  job_error : option string;
  job_duration : option float;
  job_audio : option Buffer
}.

(* ===================================================================== *)
(** ** GET /api/tts/[jobId]/audio and GET /api/tts/[jobId]                *)
(* ===================================================================== *)

Definition double_quote : string := String (ascii_of_nat 34) EmptyString.

(** *** Header values

    [new NextResponse(body, { status, headers })] fills a [Headers]
    object from [headers].  Each value is normalised (leading and
    trailing HTTP whitespace is stripped) and must then be a header value
    of the Fetch standard, free of NUL, LF and CR, or the constructor
    throws a [TypeError].  The characters of a Rocq string stand for the
    code units 0 to 255 here; a code unit above 255, which the constructor
    refuses as well, is beyond the type.  The three header names of the
    audio route are valid names. *)

(** HTTP whitespace: tab, LF, CR and space. *)
Definition is_http_whitespace (c : ascii) : bool :=
  ((N_of_ascii c =? 9) || (N_of_ascii c =? 10)
   || (N_of_ascii c =? 13) || (N_of_ascii c =? 32))%N.

Fixpoint strip_leading (s : string) : string :=
  match s with
  | String c rest => if is_http_whitespace c then strip_leading rest else s
  | EmptyString => EmptyString
  end.

Fixpoint strip_trailing (s : string) : string :=
  match s with
  | String c rest =>
      match strip_trailing rest with
      | EmptyString =>
          if is_http_whitespace c then EmptyString else String c EmptyString
      | String _ _ as rest' => String c rest'
      end
  | EmptyString => EmptyString
  end.

Definition header_value_normalize (value : string) : string :=
  strip_trailing (strip_leading value).

(** No NUL, LF or CR. *)
Fixpoint is_header_value (value : string) : bool :=
  match value with
  | String c rest =>
      negb ((N_of_ascii c =? 0) || (N_of_ascii c =? 10) || (N_of_ascii c =? 13))%N
      && is_header_value rest
  | EmptyString => true
  end.

(** The [TypeError] of the [Headers] constructor; its message, which no
    code of the routes reads, is the one undici gives. *)
Definition TypeError_invalid_header (value : string) : Thrown :=
  ThrownError
    ("Headers.append: " +:+ double_quote +:+ value +:+ double_quote
       +:+ " is an invalid header value.")%string.

(** The headers of the init object, in order, as the [Headers] object
    keeps them, or the exception at the first value that is refused. *)
Fixpoint fill_headers (init : list (string * string))
    : Completion (list (string * string)) :=
  match init with
  | [] => Normal []
  | (name, value) :: rest =>
      let value := header_value_normalize value in
      if is_header_value value then
        match fill_headers rest with
        | Normal headers => Normal ((name, value) :: headers)
        | Throw error => Throw error
        end
      else Throw (TypeError_invalid_header value)
  end.

(** [new NextResponse(body, { status, headers })] *)
Definition new_NextResponse (body : ResponseBody) (status : Z)
    (headers : list (string * string)) : Completion Response :=
  match fill_headers headers with
  | Normal headers =>
      Normal {| resp_status := status; resp_headers := headers; resp_body := body |}
  | Throw error => Throw error
  end.

(** The value of the Content-Disposition header of the audio route. *)
Definition Content_Disposition (jobId : string) : string :=
  ("attachment; filename=" +:+ double_quote +:+ "aurora-"
     +:+ jobId +:+ ".mp3" +:+ double_quote)%string.

Section Routes.
(** The two readers imported from [@/lib/ttsJobManager]; falsy results
    ([undefined]) are [None]. *)
Variable getJob : string -> option Job.
Variable getJobAudio : string -> option Buffer.

(** The audio route.  It has no [try]: what [new NextResponse] throws
    leaves the handler. *)
Definition GET_audio (jobId : string) : Completion Response :=
  match getJob jobId with
  | None => Normal (json_message 404 "Job não encontrado")
  | Some job =>
      if negb (JobStatus_eqb (job_status job) completed) then
        Normal (json_message 409 "Áudio ainda não disponível")
      else
        match getJobAudio jobId with
        | None => Normal (json_message 404 "Áudio não encontrado")
        | Some audio =>
            let arrayBuffer :=
              ArrayBuffer_slice (buffer audio) (byteOffset audio)
                                (byteOffset audio + byteLength audio) in
            (* [new Uint8Array(arrayBuffer)] views the whole copy *)
            let body := arrayBuffer in
            new_NextResponse (BytesBody body) 200
              [ ("Content-Type", "audio/mpeg");
                ("Content-Disposition", Content_Disposition jobId);
                ("Content-Length", String_of_length (Buffer_length audio)) ]%string
        end
  end.

(** The status route. *)
Definition GET_status (jobId : string) : Response :=
  match getJob jobId with
  | None => json_message 404 "Job não encontrado"
  | Some job =>
      {| resp_status := 200;
         resp_headers := [];
         resp_body :=
           StatusBody
             {| view_status := job_status job;
                view_progress := job_progress job;
                view_error := job_error job;
                view_downloadUrl :=
                  if JobStatus_eqb (job_status job) completed
                  then Some ("/api/tts/" +:+ job_id job +:+ "/audio")%string
                  else None;
                view_duration := job_duration job |} |}
  end.
End Routes.


(** The error taxonomy of the spec, read off the responses of the routes. *)
Definition InvalidRequest (r : Response) : Prop :=
  resp_status r = 400%Z /\ exists message, resp_body r = MessageBody message.

Definition NotFound (r : Response) : Prop :=
  r = json_message 404 "Job não encontrado".

Definition NotReady (r : Response) : Prop :=
  r = json_message 409 "Áudio ainda não disponível".

Definition AudioMissing (r : Response) : Prop :=
  r = json_message 404 "Áudio não encontrado".

(* ===================================================================== *)
(** ** The job registry and the pipeline                                  *)
(* ===================================================================== *)

(** [completed] and [failed] are the terminal states of the spec's state
    machine [queued -> processing -> {completed | failed}]. *)
Definition terminal (s : JobStatus) : bool :=
  match s with
  | completed | failed => true
  | queued | processing => false
  end.

Module JobStore.

(** Modelled from the spec: the record a fresh job starts as (section 3:
    created in state [queued] with progress 0, no error, no duration, no
    audio); [@/lib/ttsJobManager] is not among the sources. *)
Definition new_job (id : string) : Job :=
  {| job_id := id; job_status := queued; job_progress := 0;
     job_error := None; job_duration := None; job_audio := None |}.

(** Modelled from the spec: [create() -> jobId] of section 4.1, with a
    generated identifier that no job of the store has; the registry of
    [@/lib/ttsJobManager] is not among the sources. *)
Definition create (store : gmap string Job) : string * gmap string Job :=
  let id := fresh (dom store) in
  (id, <[id := new_job id]> store).

(** Modelled from the spec: [get(jobId) -> Job | absent] of section 4.1;
    the registry of [@/lib/ttsJobManager] is not among the sources. *)
Definition get (store : gmap string Job) (id : string) : option Job :=
  store !! id.

(** Modelled from the spec: [mutate(jobId, fn)] of section 4.1, the
    read-modify-write of one job, a no-op once the job is terminal and
    on an unknown id; the registry of [@/lib/ttsJobManager] is not among
    the sources. *)
Definition mutate (id : string) (fn : Job -> Job) (store : gmap string Job)
    : gmap string Job :=
  match store !! id with
  | Some job =>
      if terminal (job_status job) then store else <[id := fn job]> store
  | None => store
  end.

(** Modelled from the spec: the fields [attachAudio] sets at once
    (section 4.2, step 5: status [completed], progress 100, audio and
    duration); the registry of [@/lib/ttsJobManager] is not among the
    sources. *)
Definition commit (bytes : Buffer) (duration : float) (job : Job) : Job :=
  {| job_id := job_id job; job_status := completed; job_progress := 100;
     job_error := job_error job; job_duration := Some duration;
     job_audio := Some bytes |}.

(** Modelled from the spec: [attachAudio(jobId, bytes, duration)] of
    section 4.1, through [mutate], the only mutation path (section 9);
    the registry of [@/lib/ttsJobManager] is not among the sources. *)
Definition attachAudio (id : string) (bytes : Buffer) (duration : float)
    (store : gmap string Job) : gmap string Job :=
  mutate id (commit bytes duration) store.

(** The operations that change a store. *)
Inductive Op : Type :=
| OpCreate
| OpMutate (id : string) (fn : Job -> Job)
| OpAttachAudio (id : string) (bytes : Buffer) (duration : float).

Definition apply (op : Op) (store : gmap string Job) : gmap string Job :=
  match op with
  | OpCreate => snd (create store)
  | OpMutate id fn => mutate id fn store
  | OpAttachAudio id bytes duration => attachAudio id bytes duration store
  end.


End JobStore.

Module JobManager.

(** Modelled from the spec: [submit] of section 4.3 after validation:
    the job is created in the store and its id returned at once, the
    pipeline running detached; [createSynthesisJob] of
    [@/lib/ttsJobManager] is not among the sources. *)
Definition createSynthesisJob (request : SynthesisRequest)
    (store : gmap string Job) : Completion string * gmap string Job :=
  let '(id, store') := JobStore.create store in
  (Normal id, store').

(** Modelled from the spec: the lookup behind [status] and [fetchAudio]
    of section 4.3; [getJob] of [@/lib/ttsJobManager] is not among the
    sources. *)
Definition getJob (store : gmap string Job) (jobId : string) : option Job :=
  JobStore.get store jobId.

(** Modelled from the spec: the committed buffer of a job (section 3,
    [audio] is present only on completion); [getJobAudio] of
    [@/lib/ttsJobManager] is not among the sources. *)
Definition getJobAudio (store : gmap string Job) (jobId : string) : option Buffer :=
  match JobStore.get store jobId with
  | Some job => job_audio job
  | None => None
  end.

End JobManager.

Module JobPipeline.

(** Modelled from the spec: the writes one pipeline makes to its job, by
    the step of section 4.2 that makes them; the pipeline of
    [@/lib/ttsJobManager] is not among the sources. *)
Inductive Step : Type :=
| Start                                         (* step 1 *)
| ChunkDone (completedChunks totalChunks : Z)   (* step 3 *)
| EncoderProgress (percent : Z)                 (* step 4 *)
| Commit (bytes : Buffer) (duration : float)    (* step 5 *)
| Fail (message : string).                      (* step 6 *)

(** Modelled from the spec: [progress = floor(5 + 85 *
    completedChunks / totalChunks)] of section 4.2, step 3; the pipeline
    of [@/lib/ttsJobManager] is not among the sources. *)
Definition chunk_progress (completedChunks totalChunks : Z) : Z :=
  (5 + (85 * completedChunks) / totalChunks)%Z.

(** Modelled from the spec: encoder percentages mapped onto the final
    10% of the progress (section 4.2, step 4); the pipeline of
    [@/lib/ttsJobManager] is not among the sources. *)
Definition encoder_progress (percent : Z) : Z :=
  (90 + (10 * percent) / 100)%Z.

(** Modelled from the spec: the three field updates of section 4.2
    (progress alone; [processing] with progress 1; [failed] with the
    error message and the progress left as it is); the pipeline of
    [@/lib/ttsJobManager] is not among the sources. *)
Definition set_progress (p : Z) (job : Job) : Job :=
  {| job_id := job_id job; job_status := job_status job; job_progress := p;
     job_error := job_error job; job_duration := job_duration job;
     job_audio := job_audio job |}.

Definition set_processing (job : Job) : Job :=
  {| job_id := job_id job; job_status := processing; job_progress := 1;
     job_error := job_error job; job_duration := job_duration job;
     job_audio := job_audio job |}.

Definition set_failed (message : string) (job : Job) : Job :=
  {| job_id := job_id job; job_status := failed;
     job_progress := job_progress job;
     job_error := Some message; job_duration := job_duration job;
     job_audio := job_audio job |}.

(** Modelled from the spec: what each step of section 4.2 writes into
    the job record; the pipeline of [@/lib/ttsJobManager] is not among
    the sources. *)
Definition write (st : Step) : Job -> Job :=
  match st with
  | Start => set_processing
  | ChunkDone completedChunks totalChunks =>
      set_progress (chunk_progress completedChunks totalChunks)
  | EncoderProgress percent => set_progress (encoder_progress percent)
  | Commit bytes duration => JobStore.commit bytes duration
  | Fail message => set_failed message
  end.

(** Modelled from the spec: every write goes through [JobStore.mutate],
    the only mutation path (section 9); the pipeline of
    [@/lib/ttsJobManager] is not among the sources. *)
Definition step (id : string) (st : Step) (store : gmap string Job)
    : gmap string Job :=
  JobStore.mutate id (write st) store.

(** Modelled from the spec: what the AudioEncoder of section 6 does with
    the concatenated audio: its progress events in order, then [end] with
    the MP3 bytes and their duration, or [error] with a message; the
    encoder adapter is not among the sources. *)
Record Encoding : Type := {
  percents : list Z;
  outcome : (Buffer * float) + string
}.

(** Modelled from the spec: steps 4 to 6 of section 4.2, one write per
    encoder progress event, then the commit or the failure; the pipeline
    of [@/lib/ttsJobManager] is not among the sources. *)
Definition encode (enc : Encoding) : list Step :=
  List.map EncoderProgress (percents enc)
  ++ [ match outcome enc with
       | inl (bytes, duration) => Commit bytes duration
       | inr message => Fail message
       end ].

(** Modelled from the spec: step 3 of section 4.2 over the backend's
    answers for the chunks in order (raw audio, or an error message):
    progress after each chunk, failure and stop at the first error, the
    encoder after the last chunk; the pipeline of [@/lib/ttsJobManager]
    is not among the sources. *)
Fixpoint synthesize (totalChunks completedChunks : Z)
    (segments : list (list Byte.byte + string)) (enc : Encoding) : list Step :=
  match segments with
  | [] => encode enc
  | inl _ :: rest =>
      ChunkDone (completedChunks + 1) totalChunks
        :: synthesize totalChunks (completedChunks + 1) rest enc
  | inr message :: _ => [Fail message]
  end.

(** Modelled from the spec: the whole run of section 4.2 for one job;
    the pipeline of [@/lib/ttsJobManager] is not among the sources. *)
Definition run (segments : list (list Byte.byte + string)) (enc : Encoding)
    : list Step :=
  Start :: synthesize (Z.of_nat (List.length segments)) 0 segments enc.

End JobPipeline.

(** What happens in the store during the life of the job [id]: a write
    of its own pipeline, or an operation made on behalf of another job. *)
Inductive Event : Type :=
| Own (st : JobPipeline.Step)
| Elsewhere (op : JobStore.Op).

Definition happen (id : string) (e : Event) (store : gmap string Job)
    : gmap string Job :=
  match e with
  | Own st => JobPipeline.step id st store
  | Elsewhere op => JobStore.apply op store
  end.

(** The stores after each event. *)
Fixpoint history (id : string) (events : list Event) (store : gmap string Job)
    : list (gmap string Job) :=
  match events with
  | [] => []
  | e :: rest =>
      let store' := happen id e store in
      store' :: history id rest store'
  end.



(** The progress a status query reports for a job of the store. *)
Definition progress_of (id : string) (store : gmap string Job) : Z :=
  match store !! id with
  | Some job => job_progress job
  | None => 0
  end.


(** The validation failures of a submit payload. *)
Definition whitespace_only (s : jsstring) : Prop :=
  Forall (fun c => is_js_space c = true) s.

Inductive fails_validation (payload : JsValue) : Prop :=
| text_missing :
    field (nullish payload (JObject ∅)) "text" = JUndefined ->
    fails_validation payload
| text_not_a_string :
    typeof (field (nullish payload (JObject ∅)) "text") <> "string"%string ->
    fails_validation payload
| text_whitespace_only (t : jsstring) :
    field (nullish payload (JObject ∅)) "text" = JString t ->
    whitespace_only t ->
    fails_validation payload
| text_over_limit (t : jsstring) :
    field (nullish payload (JObject ∅)) "text" = JString t ->
    (js_length t > MAX_CHARACTERS)%Z ->
    fails_validation payload
| voiceId_missing :
    field (nullish payload (JObject ∅)) "voiceId" = JUndefined ->
    fails_validation payload
| voiceId_not_a_string :
    typeof (field (nullish payload (JObject ∅)) "voiceId") <> "string"%string ->
    fails_validation payload.

(** A payload the submit handler lets through its three guards. *)
Definition passes_validation (payload : JsValue) (t v : jsstring) : Prop :=
  field (nullish payload (JObject ∅)) "text" = JString t
  /\ trim t <> []
  /\ (js_length t <= MAX_CHARACTERS)%Z
  /\ field (nullish payload (JObject ∅)) "voiceId" = JString v
  /\ v <> [].

(** The values on which [Number] needs no [ToPrimitive]. *)
Definition primitive (v : JsValue) : bool :=
  match v with
  | JArray _ | JObject _ => false
  | _ => true
  end.





(** The voices a catalog offers, by identifier. *)
Inductive Gender : Type := masculine | feminine.

Record VoiceParams : Type := {
  gender : Gender;
  tone : string
}.

Module VoiceCatalog.

(** Modelled from the spec: [VoiceCatalog.resolve(voiceId) ->
    VoiceParams | absent] of section 6, a static lookup; the table of
    [@/lib/voices] is not among the sources, so the catalog is an
    argument. *)
Definition resolve (catalog : gmap jsstring VoiceParams) (voiceId : jsstring)
    : option VoiceParams :=
  catalog !! voiceId.

End VoiceCatalog.

(** [lo <= x <= hi] on numbers; false when [x] is NaN. *)
Definition in_range (lo hi x : float) : bool :=
  PrimFloat.leb lo x && PrimFloat.leb x hi.

(** The view a response of the status route carries, if any. *)
Definition response_view (r : Response) : option JobStatusView :=
  match resp_body r with
  | StatusBody view => Some view
  | _ => None
  end.

(* ===================================================================== *)
(** ** Sample data                                                        *)
(* ===================================================================== *)

Module Samples.

(** [{text: "Hello world.", voiceId: "fem-soft", speed: 1, pitch: 0,
    emotion: "neutro"}], the scenario of section 8 of the spec. *)
Definition hello : JsValue :=
  JObject (<["text" := JString (js "Hello world.")]>
          (<["voiceId" := JString (js "fem-soft")]>
          (<["speed" := JNumber 1]>
          (<["pitch" := JNumber 0]>
          (<["emotion" := JString (js "neutro")]> ∅))))).

(** [{text: "   ", voiceId: "fem-soft"}] *)
Definition blank_text : JsValue :=
  JObject (<["text" := JString (js "   ")]>
          (<["voiceId" := JString (js "fem-soft")]> ∅)).

(** [{text: "aaa...a", voiceId: "fem-soft"}] with [n] letters. *)
Definition letters (n : Z) : jsstring := List.repeat 97%N (Z.to_nat n).

Definition long_text (n : Z) : JsValue :=
  JObject (<["text" := JString (letters n)]>
          (<["voiceId" := JString (js "fem-soft")]> ∅)).

(** [{text: "Hello world.", voiceId: "ghost"}] *)
Definition unknown_voice : JsValue :=
  JObject (<["text" := JString (js "Hello world.")]>
          (<["voiceId" := JString (js "ghost")]> ∅)).

(** [{text: "Hello world."}] *)
Definition no_voice : JsValue :=
  JObject (<["text" := JString (js "Hello world.")]> ∅).

(** [{text: "Hello world.", voiceId: "fem-soft", speed: 5, pitch: 50}] *)
Definition fast_and_high : JsValue :=
  JObject (<["text" := JString (js "Hello world.")]>
          (<["voiceId" := JString (js "fem-soft")]>
          (<["speed" := JNumber 5]>
          (<["pitch" := JNumber 50]> ∅)))).

(** [{text: "Hello world.", voiceId: "fem-soft", emotion: 7}] *)
Definition defaults : JsValue :=
  JObject (<["text" := JString (js "Hello world.")]>
          (<["voiceId" := JString (js "fem-soft")]>
          (<["emotion" := JNumber 7]> ∅))).

(** [{text: "Hello world.", voiceId: "fem-soft", speed: {toString: 0}}] *)
Definition speed_object : JsValue :=
  JObject (<["text" := JString (js "Hello world.")]>
          (<["voiceId" := JString (js "fem-soft")]>
          (<["speed" := JObject (<["toString" := JNumber 0]> ∅)]> ∅))).

(** Modelled from the spec: a catalog holding the one voice identifier
    the spec names (section 8); the table of [@/lib/voices] is not among
    the sources. *)
Definition catalog : gmap jsstring VoiceParams :=
  <[js "fem-soft" := {| gender := feminine; tone := "soft" |}]> ∅.

(** A three-byte MP3 frame start inside a pooled backing store. *)
Definition mp3 : Buffer :=
  {| bytes_before := [Byte.x00; Byte.x00];
     contents := [Byte.xff; Byte.xfb; Byte.xe4];
     bytes_after := [Byte.x00] |}.

Definition job (id : string) (status : JobStatus) (progress : Z)
    (audio : option Buffer) : Job :=
  {| job_id := id; job_status := status; job_progress := progress;
     job_error := None; job_duration := None; job_audio := audio |}.

(** A store with a finished job, a running one, and a job marked
    completed whose buffer is gone. *)
Definition store : gmap string Job :=
  <["done" := job "done" completed 100 (Some mp3)]>
  (<["busy" := job "busy" processing 47 None]>
  (<["hollow" := job "hollow" completed 100 None]> ∅)).

(** Two chunks synthesised without error, then an encoder that reports
    10, 50 and 100 percent and ends with the MP3. *)
Definition segments : list (list Byte.byte + string) := [inl []; inl []].


(** The writes of that pipeline, with another submit and the progress
    and completion of the job [busy] in between. *)
Definition events : list Event :=
  [ Own JobPipeline.Start;
    Elsewhere JobStore.OpCreate;
    Own (JobPipeline.ChunkDone 1 2);
    Elsewhere (JobStore.OpMutate "busy" (JobPipeline.set_progress 48));
    Own (JobPipeline.ChunkDone 2 2);
    Own (JobPipeline.EncoderProgress 10);
    Own (JobPipeline.EncoderProgress 50);
    Elsewhere (JobStore.OpAttachAudio "busy" mp3 1);
    Own (JobPipeline.EncoderProgress 100);
    Own (JobPipeline.Commit mp3 1) ].

End Samples.

(* ===================================================================== *)
(** ** Reading the handlers                                               *)
(* ===================================================================== *)

(** The five properties the submit handler destructures from the
    payload. *)
Definition submitted_fields : list string :=
  ["text"; "voiceId"; "speed"; "pitch"; "emotion"]%string.

(** Two payloads that the destructuring cannot tell apart. *)
Definition same_submission (p q : JsValue) : Prop :=
  forall name, In name submitted_fields ->
    field (nullish p (JObject ∅)) name = field (nullish q (JObject ∅)) name.

(** [typeof v === "string" && v] for a voiceId or a text: a string that
    is not empty. *)
Definition nonempty_string (v : JsValue) : bool :=
  match v with
  | JString (_ :: _) => true
  | _ => false
  end.

(** A text the first guard of the submit handler turns away: not a
    string, or a string that [trim] empties. *)
Definition blank_or_not_a_string (v : JsValue) : Prop :=
  forall t, v = JString t -> trim t = [].

Module MoreSamples.

(** The payload [Samples.hello] with two properties the handler has no
    use for. *)
Definition hello_with_extras : JsValue :=
  JObject (<["text" := JString (js "Hello world.")]>
          (<["voiceId" := JString (js "fem-soft")]>
          (<["speed" := JNumber 1]>
          (<["pitch" := JNumber 0]>
          (<["emotion" := JString (js "neutro")]>
          (<["admin" := JBool true]>
          (<["jobId" := JString (js "done")]> ∅))))))).

End MoreSamples.

(* ===================================================================== *)
(** ** The client module ([TextToAudioModule])                            *)
(* ===================================================================== *)

(** [FormValues], what [handleSubmit] hands to [onSubmit]. *)
Record FormValues : Type := {
  form_text : jsstring;
  form_voiceId : jsstring;
  form_speed : float;
  form_pitch : float;
  form_emotion : jsstring
}.

(** The state of the component: its four [useState] cells and the
    [hasEmittedAudio] ref.  The client's [JobStatus] interface has the
    fields of the status route's object, so [JobStatusView] serves for
    both. *)
Record ModuleState : Type := {
  jobId_cell : option string;
  jobStatus : option JobStatusView;
  isSubmitting : bool;
  audioUrl : option string;
  hasEmittedAudio : bool
}.

(** The argument of [onAudioReady]. *)
Record AudioReady : Type := {
  ready_url : string;
  ready_duration : option float
}.

(** *** What travels between the client and the routes *)

(** A number through [JSON.stringify] and [JSON.parse]: a finite number
    comes back as itself (negative zero as zero), NaN and the infinities
    come back as [null]. *)
Definition wire_number (x : float) : JsValue :=
  if PrimFloat.is_finite x
  then JNumber (if PrimFloat.is_zero x then 0%float else x)
  else JNull.

(** [JSON.stringify(values)] as [request.json()] reads it; strings come
    back code unit for code unit. *)
Definition request_payload (values : FormValues) : JsValue :=
  JObject (<["text" := JString (form_text values)]>
          (<["voiceId" := JString (form_voiceId values)]>
          (<["speed" := wire_number (form_speed values)]>
          (<["pitch" := wire_number (form_pitch values)]>
          (<["emotion" := JString (form_emotion values)]> ∅))))).

(** An optional number of a response body as the client reads it back:
    absent stays absent, a non-finite number arrives as [null], which the
    client, like an absent one, only passes on; both are [None]. *)
Definition wire_duration (d : option float) : option float :=
  match d with
  | Some x =>
      if PrimFloat.is_finite x
      then Some (if PrimFloat.is_zero x then 0%float else x)
      else None
  | None => None
  end.

Definition wire_view (view : JobStatusView) : JobStatusView :=
  {| view_status := view_status view;
     view_progress := view_progress view;
     view_error := view_error view;
     view_downloadUrl := view_downloadUrl view;
     view_duration := wire_duration (view_duration view) |}.

(** [response.ok] *)
Definition response_ok (r : Response) : bool :=
  ((200 <=? resp_status r) && (resp_status r <=? 299))%Z.

(** How a call of [fetch("/api/tts", ...)] ends for [onSubmit]. *)
Inductive SubmitOutcome : Type :=
| SubmitFetchFailed (error : Thrown)        (* [fetch] rejects *)
| SubmitRejected (message : option string)  (* [!response.ok]; [error?.message] *)
| SubmitBadJson (error : Thrown)            (* ok, but [response.json()] rejects *)
| SubmitAccepted (jobId : option string).   (* ok; [data.jobId] *)

(** What [onSubmit] sees of a response made with [NextResponse.json];
    a binary response is none of the submit route's. *)
Definition submit_outcome (r : Response) : option SubmitOutcome :=
  match resp_body r with
  | BytesBody _ => None
  | body =>
      Some
        (if response_ok r
         then SubmitAccepted
                match body with JobIdBody jobId => Some jobId | _ => None end
         else SubmitRejected
                match body with MessageBody message => Some message | _ => None end)
  end.

(** How a poll of [fetch(`/api/tts/${jobId}`)] ends. *)
Inductive PollOutcome : Type :=
| PollFetchFailed                 (* [fetch] rejects *)
| PollNotOk                       (* [!response.ok] *)
| PollBadJson                     (* [response.json()] rejects *)
| PollData (data : JobStatusView).

(** What the poller sees of a response of the status route. *)
Definition poll_outcome (r : Response) : option PollOutcome :=
  if response_ok r then
    match resp_body r with
    | StatusBody view => Some (PollData (wire_view view))
    | _ => None
    end
  else Some PollNotOk.

(** *** [onSubmit] *)

(** The [catch] of [onSubmit]. *)
Definition onSubmit_catch (error : Thrown) : string :=
  match error with
  | ThrownError message => message
  | ThrownOther => "Erro desconhecido"
  end.

Definition status_queued : JobStatusView :=
  {| view_status := queued; view_progress := 1; view_error := None;
     view_downloadUrl := None; view_duration := None |}.

Definition status_failed (message : string) : JobStatusView :=
  {| view_status := failed; view_progress := 0; view_error := Some message;
     view_downloadUrl := None; view_duration := None |}.

(** [onSubmit(values)], where [outcome] is how its [fetch] ends if it
    makes one: the state it leaves, and the body it sent, if any. *)
Definition onSubmit (outcome : SubmitOutcome) (values : FormValues)
    (st : ModuleState) : ModuleState * option JsValue :=
  if negb (truthy (JString (trim (form_text values)))) then (st, None)
  else
    let body := request_payload values in
    let failed_with message :=
      {| jobId_cell := jobId_cell st;
         jobStatus := Some (status_failed message);
         isSubmitting := false;
         audioUrl := None;
         hasEmittedAudio := hasEmittedAudio st |} in
    let st' :=
      match outcome with
      | SubmitFetchFailed error => failed_with (onSubmit_catch error)
      | SubmitRejected message =>
          failed_with
            match message with
            | Some m => m
            | None => "Não foi possível criar o job de síntese"
            end
      | SubmitBadJson error => failed_with (onSubmit_catch error)
      | SubmitAccepted jobId =>
          {| jobId_cell := jobId;
             jobStatus := Some status_queued;
             isSubmitting := false;
             audioUrl := None;
             hasEmittedAudio := false |}
      end in
    (st', Some body).

(** *** The polling effect *)

(** One run of the effect: its [isCancelled] flag and whether its
    interval has been cleared. *)
Record PollingEffect : Type := {
  isCancelled : bool;
  intervalCleared : bool
}.

(** The effect as it starts when [jobId] is set. *)
Definition effect_started : PollingEffect :=
  {| isCancelled := false; intervalCleared := false |}.

(** The cleanup the effect returns. *)
Definition effect_cleanup (eff : PollingEffect) : PollingEffect :=
  {| isCancelled := true; intervalCleared := true |}.

(** The effect after its dependencies changed: the old run is cleaned
    up, and a new one starts unless [!jobId] ([null] or the empty
    string), in which case no interval exists. *)
Definition effect_restarted (eff : PollingEffect) (st : ModuleState)
    : PollingEffect :=
  match jobId_cell st with
  | Some (String _ _) => effect_started
  | _ => effect_cleanup eff
  end.

Definition clearInterval (eff : PollingEffect) : PollingEffect :=
  {| isCancelled := isCancelled eff; intervalCleared := true |}.

(** The interval callback from the point where its [fetch] has ended:
    the effect and the state it leaves, and the calls of [onAudioReady]
    it makes. *)
Definition on_poll (o : PollOutcome) (eff : PollingEffect) (st : ModuleState)
    : PollingEffect * ModuleState * list AudioReady :=
  match o with
  | PollData data =>
      if isCancelled eff then (eff, st, [])
      else
        let with_status (st : ModuleState) :=
          {| jobId_cell := jobId_cell st; jobStatus := Some data;
             isSubmitting := isSubmitting st; audioUrl := audioUrl st;
             hasEmittedAudio := hasEmittedAudio st |} in
        match view_status data, view_downloadUrl data with
        | completed, Some (String c rest as url) =>
            (clearInterval eff,
             {| jobId_cell := jobId_cell st; jobStatus := Some data;
                isSubmitting := isSubmitting st; audioUrl := Some url;
                hasEmittedAudio := true |},
             if hasEmittedAudio st then []
             else [ {| ready_url := url; ready_duration := view_duration data |} ])
        | failed, _ => (clearInterval eff, with_status st, [])
        | _, _ => (eff, with_status st, [])
        end
  | PollFetchFailed | PollNotOk | PollBadJson => (eff, st, [])
  end.

(** What can happen to the poller of one job: a poll of the running
    effect ends, or the effect is torn down and started again (its
    dependencies [jobId] and [onAudioReady] changed identity). *)
Inductive PollerEvent : Type :=
| Polled (o : PollOutcome)
| Restarted.

Definition poller_step (e : PollerEvent) (eff : PollingEffect) (st : ModuleState)
    : PollingEffect * ModuleState * list AudioReady :=
  match e with
  | Polled o => on_poll o eff st
  | Restarted => (effect_restarted eff st, st, [])
  end.

(** The calls of [onAudioReady] along a list of events, and where the
    effect and the state end up. *)
Fixpoint poller_run (events : list PollerEvent) (eff : PollingEffect)
    (st : ModuleState) : PollingEffect * ModuleState * list AudioReady :=
  match events with
  | [] => (eff, st, [])
  | e :: rest =>
      let '(eff1, st1, emitted1) := poller_step e eff st in
      let '(eff2, st2, emitted2) := poller_run rest eff1 st1 in
      (eff2, st2, emitted1 ++ emitted2)
  end.

(** *** The request a form ends up as *)

(** A slider value as it reaches [createSynthesisJob]: unchanged when
    finite (negative zero as zero), the handler's default when the form
    holds NaN or an infinity. *)
Definition arriving_number (x dflt : float) : float :=
  if PrimFloat.is_finite x
  then (if PrimFloat.is_zero x then 0%float else x)
  else dflt.

Definition arriving_request (values : FormValues) : SynthesisRequest :=
  {| text := form_text values;
     voiceId := form_voiceId values;
     speed := arriving_number (form_speed values) 1;
     pitch := arriving_number (form_pitch values) 0;
     emotion := form_emotion values |}.

(** The state [onSubmit] leaves when it fails with a message. *)
Definition submit_failed (message : string) (st : ModuleState) : ModuleState :=
  {| jobId_cell := jobId_cell st;
     jobStatus := Some (status_failed message);
     isSubmitting := false;
     audioUrl := None;
     hasEmittedAudio := hasEmittedAudio st |}.

(** The state [onSubmit] leaves when the job was created. *)
Definition submit_accepted (jobId : string) : ModuleState :=
  {| jobId_cell := Some jobId;
     jobStatus := Some status_queued;
     isSubmitting := false;
     audioUrl := None;
     hasEmittedAudio := false |}.

Module FormSamples.

Definition hello : FormValues :=
  {| form_text := js "Hello world."; form_voiceId := js "fem-soft";
     form_speed := 1; form_pitch := 0; form_emotion := js "neutro" |}.

(** The same form with a speed that is not a number. *)
Definition hello_nan : FormValues :=
  {| form_text := js "Hello world."; form_voiceId := js "fem-soft";
     form_speed := nan; form_pitch := 0; form_emotion := js "neutro" |}.

(** The component as it mounts. *)
Definition mounted : ModuleState :=
  {| jobId_cell := None; jobStatus := None; isSubmitting := false;
     audioUrl := None; hasEmittedAudio := false |}.

(** The component while it polls the job [done]. *)
Definition polling : ModuleState :=
  {| jobId_cell := Some "done"%string; jobStatus := Some status_queued;
     isSubmitting := false; audioUrl := None; hasEmittedAudio := false |}.

End FormSamples.

(** Where a run of the poller ends, and the calls it made. *)
Definition poller_effect (out : PollingEffect * ModuleState * list AudioReady)
    : PollingEffect := fst (fst out).

Definition poller_state (out : PollingEffect * ModuleState * list AudioReady)
    : ModuleState := snd (fst out).

Definition poller_calls (out : PollingEffect * ModuleState * list AudioReady)
    : list AudioReady := snd out.

(** The data of a poll stop the interval: [failed], or [completed] with
    a download URL that is not empty. *)
Definition stops_polling (data : JobStatusView) : bool :=
  match view_status data, view_downloadUrl data with
  | failed, _ => true
  | completed, Some (String _ _) => true
  | _, _ => false
  end.

Module PollSamples.

(** The status route's view of a finished job, as the poller reads it. *)
Definition finished : JobStatusView :=
  {| view_status := completed; view_progress := 100; view_error := None;
     view_downloadUrl := Some "/api/tts/done/audio"%string;
     view_duration := Some 1%float |}.

(** Two polls that both see the finished job, with a restart of the
    effect in between, as when the parent re-renders with a new
    [onAudioReady]. *)
Definition finished_twice : list PollerEvent :=
  [Polled PollFetchFailed; Polled (PollData finished); Restarted;
   Polled (PollData finished)].

End PollSamples.


Module HeaderSamples.

(** A job id with a line feed in it. *)
Definition two_lines : string := String "a" (String (ascii_of_nat 10) "b").

(** A store whose finished job has that id. *)
Definition store : gmap string Job :=
  <[two_lines := Samples.job two_lines completed 100 (Some Samples.mp3)]> ∅.

End HeaderSamples.

Module EncoderSamples.


End EncoderSamples.

(* ===================================================================== *)
(** * Properties                                                          *)
(* ===================================================================== *)

(** ** Strings *)

Lemma trimStart_head (s : jsstring) :
  trimStart s = [] \/
  exists c rest, trimStart s = c :: rest /\ is_js_space c = false.
Proof.
  induction s as [|c s IH]; simpl.
  - now left.
  - destruct (is_js_space c) eqn:E; [exact IH|].
    right. exists c, s. now split.
Qed.

Lemma trimStart_nil_iff (s : jsstring) :
  trimStart s = [] <-> whitespace_only s.
Proof.
  unfold whitespace_only. induction s as [|c s IH]; simpl.
  - split; [constructor | reflexivity].
  - destruct (is_js_space c) eqn:E.
    + rewrite IH. split.
      * intros Hs. now constructor.
      * intros Hs. now inversion Hs.
    + split; [discriminate|].
      intros Hs. inversion Hs; congruence.
Qed.

Lemma trim_nil_iff (s : jsstring) : trim s = [] <-> whitespace_only s.
Proof.
  unfold trim, trimEnd. split.
  - intros Hrev.
    apply (f_equal (@rev _)) in Hrev. rewrite rev_involutive in Hrev.
    simpl in Hrev. apply trimStart_nil_iff in Hrev.
    destruct (trimStart_head s) as [Hnil | (c & rest & Hc & Hsp)].
    + now apply trimStart_nil_iff.
    + exfalso. rewrite Hc in Hrev. unfold whitespace_only in Hrev.
      rewrite List.Forall_forall in Hrev.
      assert (is_js_space c = true) as Hc'.
      { apply Hrev. apply in_rev. rewrite rev_involutive. now left. }
      congruence.
  - intros Hs. apply trimStart_nil_iff in Hs. now rewrite Hs.
Qed.

Lemma truthy_trim (t : jsstring) :
  truthy (JString (trim t)) = false <-> trim t = [].
Proof. simpl. destruct (trim t); split; congruence. Qed.

Lemma trim_nonempty (t : jsstring) : trim t <> [] -> t <> [].
Proof. intros Ht ->. now apply Ht. Qed.

Example trim_strips_both_ends :
  trim (9 :: 32 :: js "a b" ++ [160; 10; 65279])%N = js "a b".
Proof. reflexivity. Qed.

Example trim_of_line_breaks : trim (js " " ++ [10; 13; 8232])%N = [].
Proof. reflexivity. Qed.

(** ** Coercions *)

(** [String([1, null, [true, "h"]])] is ["1,,true,h"]. *)
Example ToString_nested_array `{NumberConversions} :
  ToString (JArray [JNumber 1; JNull; JArray [JBool true; JString (js "h")]])
  = Normal (NumberToString 1 ++ js ",,true,h").
Proof. reflexivity. Qed.

(** [Number({})] converts ["[object Object]"]; [Number({toString: 0})]
    throws. *)
Example Number_plain_object `{NumberConversions} :
  Number (JObject ∅) = Normal (StringToNumber (js "[object Object]"))
  /\ Number (JObject (<["toString" := JNumber 0]> ∅)) = Throw TypeError_ToPrimitive.
Proof. split; reflexivity. Qed.

(** [Number(true)] is 1 and [Number(undefined ?? 1)] is 1. *)
Example Number_of_defaults `{NumberConversions} :
  Number (JBool true) = Normal 1%float
  /\ Number (nullish JUndefined (JNumber 1)) = Normal 1%float
  /\ Number (nullish JNull (JNumber 0)) = Normal 0%float.
Proof. repeat split. Qed.

(** ** The decision tree of the submit handler *)

Section SubmitFacts.
Context `{NumberConversions}.

Lemma POST_text_not_string (payload : JsValue) :
  typeof (field (nullish payload (JObject ∅)) "text") <> "string"%string ->
  POST (Normal payload) = Done (json_message 400 "Texto inválido").
Proof.
  intros Hty. unfold POST. cbv zeta.
  destruct (field (nullish payload (JObject ∅)) "text"); try reflexivity.
  now contradiction Hty.
Qed.

Lemma POST_text_blank (payload : JsValue) (t : jsstring) :
  field (nullish payload (JObject ∅)) "text" = JString t ->
  trim t = [] ->
  POST (Normal payload) = Done (json_message 400 "Texto inválido").
Proof.
  intros Ht Hblank. unfold POST. cbv zeta. rewrite Ht.
  apply truthy_trim in Hblank. rewrite Hblank.
  now rewrite orb_true_r.
Qed.

Lemma POST_text_too_long (payload : JsValue) (t : jsstring) :
  field (nullish payload (JObject ∅)) "text" = JString t ->
  trim t <> [] ->
  (js_length t > MAX_CHARACTERS)%Z ->
  POST (Normal payload) = Done (json_message 400 "Limite de caracteres excedido").
Proof.
  intros Ht Hblank Hlen. unfold POST. cbv zeta. rewrite Ht.
  assert (truthy (JString t) = true) as ->.
  { apply trim_nonempty in Hblank. simpl. now destruct t. }
  assert (truthy (JString (trim t)) = true) as ->.
  { destruct (truthy (JString (trim t))) eqn:E; [reflexivity|].
    now apply truthy_trim in E. }
  simpl. apply Z.gtb_gt in Hlen. now rewrite Hlen.
Qed.

Lemma POST_voice_invalid (payload : JsValue) (t : jsstring) :
  field (nullish payload (JObject ∅)) "text" = JString t ->
  trim t <> [] ->
  (js_length t <= MAX_CHARACTERS)%Z ->
  truthy (field (nullish payload (JObject ∅)) "voiceId") = false
  \/ typeof (field (nullish payload (JObject ∅)) "voiceId") <> "string"%string ->
  POST (Normal payload) = Done (json_message 400 "Selecione uma voz").
Proof.
  intros Ht Hblank Hlen Hvoice. unfold POST. cbv zeta. rewrite Ht.
  assert (truthy (JString t) = true) as ->.
  { apply trim_nonempty in Hblank. simpl. now destruct t. }
  assert (truthy (JString (trim t)) = true) as ->.
  { destruct (truthy (JString (trim t))) eqn:E; [reflexivity|].
    now apply truthy_trim in E. }
  simpl. assert ((js_length t >? MAX_CHARACTERS)%Z = false) as ->.
  { rewrite Z.gtb_ltb. apply Z.ltb_ge. lia. }
  destruct (field (nullish payload (JObject ∅)) "voiceId") eqn:Hv;
    try reflexivity.
  destruct Hvoice as [Hfalsy | Hty].
  - now rewrite Hfalsy.
  - now contradiction Hty.
Qed.

(** Past the three guards the handler coerces [speed], then [pitch],
    and calls [createSynthesisJob]. *)
Lemma POST_passes (payload : JsValue) (t v : jsstring) :
  passes_validation payload t v ->
  POST (Normal payload) =
    match number_or (field (nullish payload (JObject ∅)) "speed") 1 with
    | Throw error => Done (POST_catch error)
    | Normal speed =>
        match number_or (field (nullish payload (JObject ∅)) "pitch") 0 with
        | Throw error => Done (POST_catch error)
        | Normal pitch =>
            CallCreate
              {| text := t; voiceId := v; speed := speed; pitch := pitch;
                 emotion :=
                   emotion_or_default
                     (field (nullish payload (JObject ∅)) "emotion") |}
              POST_created
        end
    end.
Proof.
  intros (Ht & Hblank & Hlen & Hv & Hne). unfold POST. cbv zeta.
  rewrite Ht, Hv.
  assert (truthy (JString t) = true) as ->.
  { apply trim_nonempty in Hblank. simpl. now destruct t. }
  assert (truthy (JString (trim t)) = true) as ->.
  { destruct (truthy (JString (trim t))) eqn:E; [reflexivity|].
    now apply truthy_trim in E. }
  simpl negb. simpl orb.
  assert ((js_length t >? MAX_CHARACTERS)%Z = false) as ->.
  { rewrite Z.gtb_ltb. apply Z.ltb_ge. lia. }
  destruct v as [|c v]; [now contradiction Hne|].
  reflexivity.
Qed.

(** Every payload is either turned away with status 400 or passes the
    three guards. *)
Lemma POST_decision (payload : JsValue) :
  (exists message, POST (Normal payload) = Done (json_message 400 message))
  \/ (exists t v, passes_validation payload t v).
Proof.
  destruct (field (nullish payload (JObject ∅)) "text") as [| | | |t| |] eqn:Ht;
    try (left; eexists; apply POST_text_not_string; rewrite Ht; discriminate).
  destruct (trim t) as [|c0 t0] eqn:Hblank.
  { left. eexists. now apply (POST_text_blank payload t). }
  assert (trim t <> []) as Hblank' by (rewrite Hblank; discriminate).
  destruct (Z_gt_le_dec (js_length t) MAX_CHARACTERS) as [Hlong | Hlen].
  { left. eexists. now apply (POST_text_too_long payload t). }
  destruct (field (nullish payload (JObject ∅)) "voiceId") as [| | | |v| |] eqn:Hv;
    try (left; eexists; apply (POST_voice_invalid payload t); auto;
         right; rewrite Hv; discriminate).
  destruct v as [|c1 v1].
  { left. eexists. apply (POST_voice_invalid payload t); auto.
    left. now rewrite Hv. }
  right. exists t, (c1 :: v1). repeat split; auto; discriminate.
Qed.

Lemma fails_validation_not_passes (payload : JsValue) (t v : jsstring) :
  fails_validation payload -> passes_validation payload t v -> False.
Proof.
  intros Hfail (Ht & Hblank & Hlen & Hv & Hne).
  destruct Hfail as [Hu | Hty | t' Ht' Hws | t' Ht' Hlong | Hu | Hty].
  - congruence.
  - apply Hty. now rewrite Ht.
  - assert (t' = t) as -> by congruence. now apply Hblank, trim_nil_iff.
  - assert (t' = t) as -> by congruence. lia.
  - congruence.
  - apply Hty. now rewrite Hv.
Qed.
End SubmitFacts.


(** A handler that is [Done] makes no call and leaves any state alone. *)
Lemma Done_makes_no_call {A : Type} (a : A) :
  (forall oracle, calls oracle (Done a) = [])
  /\ (forall (S : Type)
        (create : SynthesisRequest -> S -> Completion string * S) (s : S),
        run create (Done a) s = (a, s)).
Proof. split; reflexivity. Qed.

Lemma json_400_InvalidRequest (message : string) :
  InvalidRequest (json_message 400 message)
  /\ response_jobId (json_message 400 message) = None.
Proof. repeat split. now exists message. Qed.

(** ** Submit: validation *)

(** A payload that fails validation is turned away with status 400. *)
Lemma invalid_payload_rejected `{NumberConversions} (payload : JsValue) :
  fails_validation payload ->
  exists message, POST (Normal payload) = Done (json_message 400 message).
Proof.
  intros Hfail.
  destruct (POST_decision payload) as [Hreject | (t & v & Hpass)];
    [exact Hreject | exfalso].
  exact (fails_validation_not_passes payload t v Hfail Hpass).
Qed.

(** C2: a submit payload that fails validation (text missing, not a
    string or whitespace-only, text over the character limit, voiceId
    missing or not a string) is answered with an InvalidRequest response
    (status 400 and a message); the handler finishes without calling
    [createSynthesisJob], so whatever implements it the state is left as
    it was, and the response carries no job id. *)
Theorem C2_invalid_payload_creates_no_job
    `{NumberConversions} (payload : JsValue) :
  fails_validation payload ->
  exists r : Response,
    POST (Normal payload) = Done r
    /\ InvalidRequest r
    /\ response_jobId r = None
    /\ (forall oracle, calls oracle (POST (Normal payload)) = [])
    /\ (forall (S : Type)
          (createSynthesisJob : SynthesisRequest -> S -> Completion string * S)
          (s : S),
          run createSynthesisJob (POST (Normal payload)) s = (r, s)).
Proof.
  intros Hfail.
  destruct (invalid_payload_rejected payload Hfail) as [message Hpost].
  exists (json_message 400 message). rewrite Hpost.
  destruct (json_400_InvalidRequest message) as [Hinvalid HnoId].
  destruct (Done_makes_no_call (json_message 400 message)) as [Hcalls Hrun].
  split; [reflexivity|]. split; [exact Hinvalid|]. split; [exact HnoId|].
  split; [exact Hcalls | exact Hrun].
Qed.

Lemma C2_blank_text_creates_no_job :
  fails_validation Samples.blank_text
  /\ forall conversions : NumberConversions,
       exists r : Response,
         POST (Normal Samples.blank_text) = Done r
         /\ InvalidRequest r
         /\ response_jobId r = None
         /\ (forall oracle, calls oracle (POST (Normal Samples.blank_text)) = [])
         /\ (forall (S : Type)
               (createSynthesisJob :
                  SynthesisRequest -> S -> Completion string * S) (s : S),
               run createSynthesisJob (POST (Normal Samples.blank_text)) s = (r, s)).
Proof.
  assert (fails_validation Samples.blank_text) as Hfail.
  { apply text_whitespace_only with (t := js "   ").
    - reflexivity.
    - repeat constructor. }
  split; [exact Hfail|].
  intros conversions.
  exact (C2_invalid_payload_creates_no_job Samples.blank_text Hfail).
Defined.

(** The only way to the length message is a string text over the limit. *)
Lemma POST_limit_message `{NumberConversions} (payload : JsValue) :
  POST (Normal payload) = Done (json_message 400 "Limite de caracteres excedido") ->
  exists t, field (nullish payload (JObject ∅)) "text" = JString t
            /\ (js_length t > MAX_CHARACTERS)%Z.
Proof.
  intros Hpost.
  destruct (field (nullish payload (JObject ∅)) "text") as [| | | |t| |] eqn:Ht;
    try (rewrite POST_text_not_string in Hpost;
         [discriminate Hpost | rewrite Ht; discriminate]).
  exists t. split; [reflexivity|].
  destruct (trim t) as [|c0 t0] eqn:Hblank.
  { rewrite (POST_text_blank payload t Ht Hblank) in Hpost. discriminate Hpost. }
  assert (trim t <> []) as Hblank' by (rewrite Hblank; discriminate).
  destruct (Z_gt_le_dec (js_length t) MAX_CHARACTERS) as [Hlong | Hlen];
    [exact Hlong | exfalso].
  destruct (field (nullish payload (JObject ∅)) "voiceId") as [| | | |v| |] eqn:Hv;
    try (rewrite (POST_voice_invalid payload t Ht Hblank' Hlen) in Hpost;
         [discriminate Hpost | right; rewrite Hv; discriminate]).
  destruct v as [|c1 v1].
  { rewrite (POST_voice_invalid payload t Ht Hblank' Hlen) in Hpost;
      [discriminate Hpost | left; now rewrite Hv]. }
  rewrite (POST_passes payload t (c1 :: v1)) in Hpost.
  - destruct (number_or _ 1); [|discriminate Hpost].
    destruct (number_or _ 0); discriminate Hpost.
  - repeat split; auto; discriminate.
Qed.

(** C3: a payload whose text is longer than 100,000 code units is
    answered with an InvalidRequest response, without a call of
    [createSynthesisJob] and without a job id; a text of exactly 100,000
    is not turned away for its length, and when it is not blank and a
    voice is given the handler goes on to create the job. *)
Theorem C3_character_limit
    `{NumberConversions} (payload : JsValue) (t : jsstring) :
  field (nullish payload (JObject ∅)) "text" = JString t ->
  ((js_length t > 100000)%Z ->
     exists r : Response,
       POST (Normal payload) = Done r
       /\ InvalidRequest r
       /\ response_jobId r = None
       /\ (forall oracle, calls oracle (POST (Normal payload)) = []))
  /\ (js_length t = 100000%Z ->
        POST (Normal payload)
          <> Done (json_message 400 "Limite de caracteres excedido")
        /\ forall v s p,
             trim t <> [] ->
             field (nullish payload (JObject ∅)) "voiceId" = JString v ->
             v <> [] ->
             number_or (field (nullish payload (JObject ∅)) "speed") 1 = Normal s ->
             number_or (field (nullish payload (JObject ∅)) "pitch") 0 = Normal p ->
             exists req, POST (Normal payload) = CallCreate req POST_created
                         /\ text req = t).
Proof.
  intros Ht. split.
  - intros Hlong.
    assert (fails_validation payload) as Hfail.
    { now apply text_over_limit with (t := t). }
    destruct (invalid_payload_rejected payload Hfail) as [message Hpost].
    exists (json_message 400 message). rewrite Hpost.
    destruct (json_400_InvalidRequest message) as [Hinvalid HnoId].
    split; [reflexivity|]. split; [exact Hinvalid|]. split; [exact HnoId|].
    reflexivity.
  - intros Hlen. split.
    + intros Hpost. apply POST_limit_message in Hpost.
      destruct Hpost as (t' & Ht' & Hlong).
      assert (t' = t) as -> by congruence.
      unfold MAX_CHARACTERS in Hlong. lia.
    + intros v s p Hblank Hv Hne Hspeed Hpitch.
      rewrite (POST_passes payload t v).
      * rewrite Hspeed, Hpitch. eexists. split; reflexivity.
      * repeat split; auto. unfold MAX_CHARACTERS. lia.
Qed.

Lemma letters_length (n : Z) : (0 <= n)%Z -> js_length (Samples.letters n) = n.
Proof.
  intros Hn. unfold js_length, Samples.letters.
  rewrite repeat_length. now apply Z2Nat.id.
Qed.

Lemma letters_not_blank (n : Z) : (0 < n)%Z -> trim (Samples.letters n) <> [].
Proof.
  intros Hn Hblank. apply trim_nil_iff in Hblank.
  unfold Samples.letters in Hblank.
  destruct (Z.to_nat n) as [|k] eqn:Hk; [lia|].
  simpl in Hblank. inversion Hblank as [|c l Hc Hl]. discriminate Hc.
Qed.

Lemma C3_limit_at_100001_and_100000 :
  (field (nullish (Samples.long_text 100001) (JObject ∅)) "text"
     = JString (Samples.letters 100001)
   /\ (js_length (Samples.letters 100001) > 100000)%Z
   /\ forall conversions : NumberConversions,
        exists r : Response,
          POST (Normal (Samples.long_text 100001)) = Done r
          /\ InvalidRequest r
          /\ response_jobId r = None
          /\ (forall oracle,
                calls oracle (POST (Normal (Samples.long_text 100001))) = []))
  /\ (field (nullish (Samples.long_text 100000) (JObject ∅)) "text"
        = JString (Samples.letters 100000)
      /\ js_length (Samples.letters 100000) = 100000%Z
      /\ forall conversions : NumberConversions,
           exists req,
             POST (Normal (Samples.long_text 100000)) = CallCreate req POST_created
             /\ text req = Samples.letters 100000).
Proof.
  split.
  - split; [reflexivity|].
    split; [rewrite letters_length; lia|].
    intros conversions.
    apply (C3_character_limit (Samples.long_text 100001) (Samples.letters 100001)).
    + reflexivity.
    + rewrite letters_length; lia.
  - split; [reflexivity|].
    split; [apply letters_length; lia|].
    intros conversions.
    apply (C3_character_limit (Samples.long_text 100000) (Samples.letters 100000)
             eq_refl)
      with (v := js "fem-soft") (s := 1%float) (p := 0%float).
    + apply letters_length; lia.
    + apply letters_not_blank; lia.
    + reflexivity.
    + discriminate.
    + reflexivity.
    + reflexivity.
Defined.

(** ** Submit: the voice *)

(** C4, as stated, fails: the identifier [ghost] is not in the catalog,
    yet the handler lets the payload through and calls
    [createSynthesisJob] with it; whatever the call answers, the response
    has status 202 or 500, never 400. *)
Lemma C4_unresolved_voice_reaches_createSynthesisJob :
  VoiceCatalog.resolve Samples.catalog (js "ghost") = None
  /\ field Samples.unknown_voice "voiceId" = JString (js "ghost")
  /\ (forall conversions : NumberConversions,
        POST (Normal Samples.unknown_voice) =
          CallCreate
            {| text := js "Hello world."; voiceId := js "ghost";
               speed := 1; pitch := 0; emotion := js "neutro" |}
            POST_created)
  /\ (forall answer : Completion string,
        exists r : Response,
          POST_created answer = Done r
          /\ (resp_status r = 202%Z \/ resp_status r = 500%Z)).
Proof.
  split; [reflexivity|]. split; [reflexivity|]. split.
  - intros conversions. reflexivity.
  - intros [jobId | error]; eexists; (split; [reflexivity|]); simpl; auto.
Qed.

(** C4, amended: with a valid text, a voiceId that is missing, not a
    string or the empty string is answered with an InvalidRequest
    response, without a call of [createSynthesisJob] and without a job id;
    the handler never looks the voice up, so a non-empty string voiceId is
    never turned away: the handler either calls [createSynthesisJob] with
    that voiceId or, when a number coercion throws, answers 500. *)
Theorem C4_voice_must_be_a_nonempty_string
    `{NumberConversions} (payload : JsValue) (t : jsstring) :
  field (nullish payload (JObject ∅)) "text" = JString t ->
  trim t <> [] ->
  (js_length t <= MAX_CHARACTERS)%Z ->
  (truthy (field (nullish payload (JObject ∅)) "voiceId") = false
   \/ typeof (field (nullish payload (JObject ∅)) "voiceId") <> "string"%string ->
   POST (Normal payload) = Done (json_message 400 "Selecione uma voz")
   /\ InvalidRequest (json_message 400 "Selecione uma voz")
   /\ response_jobId (json_message 400 "Selecione uma voz") = None
   /\ (forall oracle, calls oracle (POST (Normal payload)) = []))
  /\ (forall v,
        field (nullish payload (JObject ∅)) "voiceId" = JString v ->
        v <> [] ->
        (exists req, POST (Normal payload) = CallCreate req POST_created
                     /\ voiceId req = v)
        \/ (exists error, POST (Normal payload) = Done (POST_catch error))).
Proof.
  intros Ht Hblank Hlen. split.
  - intros Hvoice.
    rewrite (POST_voice_invalid payload t Ht Hblank Hlen Hvoice).
    destruct (json_400_InvalidRequest "Selecione uma voz") as [Hinv Hid].
    repeat split; auto. now destruct Hinv as [_ Hbody].
  - intros v Hv Hne. rewrite (POST_passes payload t v).
    + destruct (number_or _ 1) as [s | error]; [|right; now exists error].
      destruct (number_or _ 0) as [p | error]; [|right; now exists error].
      left. eexists. split; reflexivity.
    + repeat split; auto.
Qed.

Lemma C4_missing_voice_rejected :
  (field (nullish Samples.no_voice (JObject ∅)) "text" = JString (js "Hello world.")
   /\ trim (js "Hello world.") <> []
   /\ (js_length (js "Hello world.") <= MAX_CHARACTERS)%Z
   /\ truthy (field (nullish Samples.no_voice (JObject ∅)) "voiceId") = false)
  /\ forall conversions : NumberConversions,
       POST (Normal Samples.no_voice) = Done (json_message 400 "Selecione uma voz")
       /\ InvalidRequest (json_message 400 "Selecione uma voz")
       /\ response_jobId (json_message 400 "Selecione uma voz") = None
       /\ (forall oracle, calls oracle (POST (Normal Samples.no_voice)) = []).
Proof.
  assert (trim (js "Hello world.") <> []) as Hblank by (vm_compute; discriminate).
  assert (js_length (js "Hello world.") <= MAX_CHARACTERS)%Z as Hlen
    by (vm_compute; discriminate).
  split.
  - repeat split; auto.
  - intros conversions.
    apply (C4_voice_must_be_a_nonempty_string
             Samples.no_voice (js "Hello world.") eq_refl Hblank Hlen).
    left. reflexivity.
Defined.

(** ** Submit: speed, pitch and emotion *)

Lemma number_or_Number `{NumberConversions} (v : JsValue) (dflt : float) :
  number_or v dflt = Number (nullish v (JNumber dflt)).
Proof. now destruct v. Qed.

(** C9, as stated, fails: a payload with speed 5 and pitch 50 is
    accepted, and the request handed to [createSynthesisJob] carries 5
    and 50, outside [0.5, 2.0] and [-10, 10]. *)
Lemma C9_speed_and_pitch_are_not_clamped :
  field Samples.fast_and_high "speed" = JNumber 5
  /\ field Samples.fast_and_high "pitch" = JNumber 50
  /\ forall conversions : NumberConversions,
       exists req,
         POST (Normal Samples.fast_and_high) = CallCreate req POST_created
         /\ in_range 0.5 2 (speed req) = false
         /\ in_range (-10) 10 (pitch req) = false.
Proof.
  split; [reflexivity|]. split; [reflexivity|].
  intros conversions. eexists. split; [reflexivity|].
  split; reflexivity.
Qed.

(** C9, amended: the submit handler does not clamp.  For every accepted
    payload whose speed and pitch are numbers, the request the job is
    created with carries exactly those numbers, so its speed lies in
    [0.5, 2.0] and its pitch in [-10, 10] exactly when the submitted
    values do. *)
Theorem C9_numeric_speed_and_pitch_pass_unchanged
    `{NumberConversions} (payload : JsValue) (t v : jsstring) (x y : float) :
  passes_validation payload t v ->
  field (nullish payload (JObject ∅)) "speed" = JNumber x ->
  field (nullish payload (JObject ∅)) "pitch" = JNumber y ->
  exists req,
    POST (Normal payload) = CallCreate req POST_created
    /\ speed req = x
    /\ pitch req = y
    /\ in_range 0.5 2 (speed req) = in_range 0.5 2 x
    /\ in_range (-10) 10 (pitch req) = in_range (-10) 10 y.
Proof.
  intros Hpass Hspeed Hpitch.
  rewrite (POST_passes payload t v Hpass), Hspeed, Hpitch. simpl.
  eexists. repeat split.
Qed.

Lemma hello_passes_validation :
  passes_validation Samples.hello (js "Hello world.") (js "fem-soft").
Proof.
  repeat split; try reflexivity; vm_compute; discriminate.
Defined.

Lemma C9_hello_keeps_speed_and_pitch :
  passes_validation Samples.hello (js "Hello world.") (js "fem-soft")
  /\ field (nullish Samples.hello (JObject ∅)) "speed" = JNumber 1
  /\ field (nullish Samples.hello (JObject ∅)) "pitch" = JNumber 0
  /\ forall conversions : NumberConversions,
       exists req,
         POST (Normal Samples.hello) = CallCreate req POST_created
         /\ speed req = 1%float
         /\ pitch req = 0%float
         /\ in_range 0.5 2 (speed req) = in_range 0.5 2 1
         /\ in_range (-10) 10 (pitch req) = in_range (-10) 10 0.
Proof.
  split; [exact hello_passes_validation|].
  split; [reflexivity|]. split; [reflexivity|].
  intros conversions.
  exact (C9_numeric_speed_and_pitch_pass_unchanged
           Samples.hello (js "Hello world.") (js "fem-soft") 1 0
           hello_passes_validation eq_refl eq_refl).
Defined.

Lemma Number_primitive `{NumberConversions} (v : JsValue) (dflt : float) :
  primitive v = true -> exists x, Number (nullish v (JNumber dflt)) = Normal x.
Proof. destruct v; simpl; intros Hp; try discriminate Hp; eexists; reflexivity. Qed.

(** C10, as stated, fails: with a valid text and voiceId, the
    non-numeric speed [{toString: 0}] makes [Number(speed ?? 1)] throw a
    TypeError, which the handler's [catch] turns into a 500 response; no
    job is created. *)
Lemma C10_object_speed_is_answered_500 :
  passes_validation Samples.speed_object (js "Hello world.") (js "fem-soft")
  /\ field Samples.speed_object "speed" = JObject (<["toString" := JNumber 0]> ∅)
  /\ forall conversions : NumberConversions,
       POST (Normal Samples.speed_object)
         = Done (json_message 500 "Cannot convert object to primitive value")
       /\ (forall oracle, calls oracle (POST (Normal Samples.speed_object)) = []).
Proof.
  split.
  { repeat split; try reflexivity; vm_compute; discriminate. }
  split; [reflexivity|].
  intros conversions. split; reflexivity.
Qed.

(** C10, amended: for a payload with valid text and voiceId, speed,
    pitch and emotion are never a reason for a 400.  Whenever
    [Number(speed ?? 1)] and [Number(pitch ?? 0)] return, as they do for
    every absent, null, boolean, numeric or string value, the handler
    calls [createSynthesisJob] with those two numbers (1 and 0 when the
    fields are absent) and with emotion "neutro" when the submitted
    emotion is not a string; when a coercion throws, the handler answers
    with the [catch] response and makes no call. *)
Theorem C10_defaults_and_coercions
    `{NumberConversions} (payload : JsValue) (t v : jsstring) :
  passes_validation payload t v ->
  let speed_field := field (nullish payload (JObject ∅)) "speed" in
  let pitch_field := field (nullish payload (JObject ∅)) "pitch" in
  let emotion_field := field (nullish payload (JObject ∅)) "emotion" in
  (forall s p,
     Number (nullish speed_field (JNumber 1)) = Normal s ->
     Number (nullish pitch_field (JNumber 0)) = Normal p ->
     exists e,
       POST (Normal payload) =
         CallCreate
           {| text := t; voiceId := v; speed := s; pitch := p; emotion := e |}
           POST_created
       /\ (typeof emotion_field <> "string"%string -> e = js "neutro")
       /\ (forall e', emotion_field = JString e' -> e = e'))
  /\ (primitive speed_field = true ->
      exists s, Number (nullish speed_field (JNumber 1)) = Normal s)
  /\ (primitive pitch_field = true ->
      exists p, Number (nullish pitch_field (JNumber 0)) = Normal p)
  /\ (speed_field = JUndefined ->
      Number (nullish speed_field (JNumber 1)) = Normal 1%float)
  /\ (pitch_field = JUndefined ->
      Number (nullish pitch_field (JNumber 0)) = Normal 0%float)
  /\ (forall error,
        Number (nullish speed_field (JNumber 1)) = Throw error
        \/ ((exists s, Number (nullish speed_field (JNumber 1)) = Normal s)
            /\ Number (nullish pitch_field (JNumber 0)) = Throw error) ->
        POST (Normal payload) = Done (POST_catch error)).
Proof.
  intros Hpass speed_field pitch_field emotion_field.
  pose proof (POST_passes payload t v Hpass) as Hpost.
  rewrite !number_or_Number in Hpost.
  fold speed_field pitch_field emotion_field in Hpost.
  repeat split.
  - intros s p Hs Hp. rewrite Hs, Hp in Hpost.
    exists (emotion_or_default emotion_field). split; [exact Hpost|]. split.
    + intros Hty. destruct emotion_field; try reflexivity. now contradiction Hty.
    + intros e' He'. now rewrite He'.
  - apply Number_primitive.
  - apply Number_primitive.
  - intros ->. reflexivity.
  - intros ->. reflexivity.
  - intros error [Hs | [[s Hs] Hp]].
    + now rewrite Hs in Hpost.
    + now rewrite Hs, Hp in Hpost.
Qed.

Lemma C10_absent_speed_and_pitch_numeric_emotion :
  passes_validation Samples.defaults (js "Hello world.") (js "fem-soft")
  /\ field (nullish Samples.defaults (JObject ∅)) "speed" = JUndefined
  /\ field (nullish Samples.defaults (JObject ∅)) "pitch" = JUndefined
  /\ field (nullish Samples.defaults (JObject ∅)) "emotion" = JNumber 7
  /\ forall conversions : NumberConversions,
       POST (Normal Samples.defaults) =
         CallCreate
           {| text := js "Hello world."; voiceId := js "fem-soft";
              speed := 1; pitch := 0; emotion := js "neutro" |}
           POST_created.
Proof.
  assert (passes_validation Samples.defaults (js "Hello world.") (js "fem-soft"))
    as Hpass.
  { repeat split; try reflexivity; vm_compute; discriminate. }
  split; [exact Hpass|].
  split; [reflexivity|]. split; [reflexivity|]. split; [reflexivity|].
  intros conversions.
  destruct (C10_defaults_and_coercions Samples.defaults
              (js "Hello world.") (js "fem-soft") Hpass) as [Hcall _].
  destruct (Hcall 1%float 0%float eq_refl eq_refl) as (e & Hpost & Hdefault & _).
  rewrite Hpost. f_equal. f_equal. apply Hdefault. discriminate.
Defined.

(** ** Fetching audio and querying status *)

(** Copying the window of a buffer out of its backing store gives the
    contents of the buffer. *)
Lemma slice_window (b : Buffer) :
  ArrayBuffer_slice (buffer b) (byteOffset b) (byteOffset b + byteLength b)
  = contents b.
Proof.
  unfold ArrayBuffer_slice, buffer, byteOffset, byteLength.
  destruct b as [before window after]. simpl.
  rewrite !length_app.
  set (o := List.length before). set (n := List.length window).
  set (k := List.length after).
  assert ((Z.of_nat o <? 0)%Z = false) as -> by (apply Z.ltb_ge; lia).
  assert ((Z.of_nat o + Z.of_nat n <? 0)%Z = false) as -> by (apply Z.ltb_ge; lia).
  replace (Z.to_nat (Z.min (Z.of_nat o) (Z.of_nat (o + (n + k))))) with o by lia.
  replace (Z.to_nat
             (Z.max
                (Z.min (Z.of_nat o + Z.of_nat n) (Z.of_nat (o + (n + k)))
                 - Z.min (Z.of_nat o) (Z.of_nat (o + (n + k)))) 0))
    with n by lia.
  subst o n k. rewrite drop_app_length. now rewrite take_app_length.
Qed.

(** *** Header values of the audio route *)

Lemma strip_trailing_app (a b : string) :
  strip_trailing b = b -> b <> EmptyString ->
  strip_trailing (a +:+ b) = (a +:+ b)%string.
Proof.
  intros Hb Hne. induction a as [|c a IH]; [exact Hb|].
  change (String c a +:+ b)%string with (String c (a +:+ b)).
  cbn [strip_trailing]. rewrite IH.
  destruct (a +:+ b)%string eqn:Hab; [|reflexivity].
  destruct a; [now contradiction Hne | discriminate Hab].
Qed.

Lemma is_header_value_app (a b : string) :
  is_header_value (a +:+ b) = is_header_value a && is_header_value b.
Proof.
  induction a as [|c a IH]; [reflexivity|].
  change (String c a +:+ b)%string with (String c (a +:+ b)).
  cbn [is_header_value]. rewrite IH. now rewrite andb_assoc.
Qed.

(** The Content-Disposition value has no whitespace to strip at either
    end, and is refused exactly when the job id holds NUL, LF or CR. *)
Lemma Content_Disposition_value (jobId : string) :
  header_value_normalize (Content_Disposition jobId) = Content_Disposition jobId
  /\ is_header_value (Content_Disposition jobId) = is_header_value jobId.
Proof.
  unfold Content_Disposition, header_value_normalize. split.
  - change (strip_leading
              ("attachment; filename=" +:+ double_quote +:+ "aurora-"
                 +:+ jobId +:+ ".mp3" +:+ double_quote))
      with ("attachment; filename=" +:+ double_quote +:+ "aurora-"
              +:+ jobId +:+ ".mp3" +:+ double_quote)%string.
    repeat (apply strip_trailing_app;
            [|unfold double_quote; simpl;
              try discriminate;
              destruct jobId; simpl; discriminate]).
    reflexivity.
  - rewrite !is_header_value_app. simpl.
    now rewrite andb_true_r.
Qed.

Lemma digits_clean (d : Decimal.uint) :
  strip_leading (NilEmpty.string_of_uint d) = NilEmpty.string_of_uint d
  /\ strip_trailing (NilEmpty.string_of_uint d) = NilEmpty.string_of_uint d
  /\ is_header_value (NilEmpty.string_of_uint d) = true.
Proof.
  induction d as [|d IH|d IH|d IH|d IH|d IH|d IH|d IH|d IH|d IH|d IH];
    [repeat split| | | | | | | | | |];
    destruct IH as (_ & Htrail & Hvalue);
    (split; [reflexivity|]);
    (split; [|simpl; exact Hvalue]);
    simpl; rewrite Htrail;
    now destruct (NilEmpty.string_of_uint d).
Qed.

(** A decimal length is a header value as it stands. *)
Lemma String_of_length_value (n : Z) :
  header_value_normalize (String_of_length n) = String_of_length n
  /\ is_header_value (String_of_length n) = true.
Proof.
  unfold String_of_length, NilZero.string_of_uint, header_value_normalize.
  destruct (N.to_uint (Z.to_N n)) as [|d|d|d|d|d|d|d|d|d|d] eqn:Hd;
    [split; reflexivity| | | | | | | | | |];
    match goal with
    | |- context [NilEmpty.string_of_uint ?u] =>
        destruct (digits_clean u) as (Hlead & Htrail & Hvalue)
    end;
    rewrite Hlead; split; assumption.
Qed.


(** The three headers of the audio route go through, or the
    Content-Disposition value is refused. *)
Lemma fill_audio_headers (jobId : string) (n : Z) :
  fill_headers
    [ ("Content-Type", "audio/mpeg");
      ("Content-Disposition", Content_Disposition jobId);
      ("Content-Length", String_of_length n) ]%string
  = if is_header_value jobId then
      Normal [ ("Content-Type", "audio/mpeg");
               ("Content-Disposition", Content_Disposition jobId);
               ("Content-Length", String_of_length n) ]%string
    else Throw (TypeError_invalid_header (Content_Disposition jobId)).
Proof.
  destruct (Content_Disposition_value jobId) as [Hnormal Hvalid].
  destruct (String_of_length_value n) as [Hdigits Hclean].
  cbn [fill_headers].
  change (header_value_normalize "audio/mpeg") with "audio/mpeg"%string.
  change (is_header_value "audio/mpeg") with true. cbv iota.
  rewrite Hnormal, Hvalid, Hdigits, Hclean.
  now destruct (is_header_value jobId).
Qed.

Section RouteFacts.
Variable getJob : string -> option Job.
Variable getJobAudio : string -> option Buffer.

Lemma GET_audio_completed (jobId : string) (job : Job) :
  getJob jobId = Some job ->
  job_status job = completed ->
  GET_audio getJob getJobAudio jobId =
    match getJobAudio jobId with
    | None => Normal (json_message 404 "Áudio não encontrado")
    | Some audio =>
        if is_header_value jobId then
          Normal
            {| resp_status := 200;
               resp_headers :=
                 [ ("Content-Type", "audio/mpeg");
                   ("Content-Disposition", Content_Disposition jobId);
                   ("Content-Length", String_of_length (Buffer_length audio)) ]%string;
               resp_body := BytesBody (contents audio) |}
        else Throw (TypeError_invalid_header (Content_Disposition jobId))
    end.
Proof.
  intros Hjob Hstatus. unfold GET_audio. rewrite Hjob, Hstatus. simpl.
  destruct (getJobAudio jobId) as [audio|]; [|reflexivity].
  unfold new_NextResponse. rewrite fill_audio_headers, slice_window.
  now destruct (is_header_value jobId).
Qed.

Lemma GET_audio_not_completed (jobId : string) (job : Job) :
  getJob jobId = Some job ->
  job_status job <> completed ->
  GET_audio getJob getJobAudio jobId
  = Normal (json_message 409 "Áudio ainda não disponível").
Proof.
  intros Hjob Hstatus. unfold GET_audio. rewrite Hjob.
  destruct (job_status job); try reflexivity. now contradiction Hstatus.
Qed.

Lemma GET_audio_unknown (jobId : string) :
  getJob jobId = None ->
  GET_audio getJob getJobAudio jobId
  = Normal (json_message 404 "Job não encontrado").
Proof. intros Hjob. unfold GET_audio. now rewrite Hjob. Qed.
End RouteFacts.




(** C6: for an existing job whose status is not completed (queued,
    processing or failed), the audio route answers with the NotReady
    response (status 409), which carries no audio bytes. *)
Theorem C6_fetchAudio_before_completion_is_NotReady
    (getJob : string -> option Job) (getJobAudio : string -> option Buffer)
    (jobId : string) (job : Job) :
  getJob jobId = Some job ->
  job_status job <> completed ->
  exists r,
    GET_audio getJob getJobAudio jobId = Normal r
    /\ NotReady r
    /\ resp_status r = 409%Z
    /\ response_bytes r = None.
Proof.
  intros Hjob Hstatus.
  rewrite (GET_audio_not_completed getJob getJobAudio jobId job Hjob Hstatus).
  eexists. split; [reflexivity|]. unfold NotReady. repeat split.
Qed.

Lemma C6_running_job_is_NotReady :
  JobManager.getJob Samples.store "busy"
    = Some (Samples.job "busy" processing 47 None)
  /\ exists r,
       GET_audio (JobManager.getJob Samples.store)
                 (JobManager.getJobAudio Samples.store) "busy" = Normal r
       /\ NotReady r
       /\ resp_status r = 409%Z
       /\ response_bytes r = None.
Proof.
  split; [reflexivity|].
  apply (C6_fetchAudio_before_completion_is_NotReady
           (JobManager.getJob Samples.store)
           (JobManager.getJobAudio Samples.store)
           "busy" (Samples.job "busy" processing 47 None) eq_refl).
  discriminate.
Defined.

(** C7: for a job id the store does not know, the status route and the
    audio route both answer with the NotFound response (status 404); the
    status route gives no job view, and the audio route no bytes. *)
Theorem C7_unknown_job_is_NotFound
    (getJob : string -> option Job) (getJobAudio : string -> option Buffer)
    (jobId : string) :
  getJob jobId = None ->
  NotFound (GET_status getJob jobId)
  /\ (exists r,
        GET_audio getJob getJobAudio jobId = Normal r
        /\ NotFound r
        /\ response_bytes r = None)
  /\ resp_status (GET_status getJob jobId) = 404%Z
  /\ response_view (GET_status getJob jobId) = None.
Proof.
  intros Hjob. rewrite (GET_audio_unknown getJob getJobAudio jobId Hjob).
  unfold NotFound, GET_status. rewrite Hjob.
  split; [reflexivity|]. split; [|split; reflexivity].
  eexists. split; [reflexivity|]. split; reflexivity.
Qed.

Lemma C7_unknown_id_in_sample_store :
  JobManager.getJob Samples.store "nowhere" = None
  /\ NotFound (GET_status (JobManager.getJob Samples.store) "nowhere")
  /\ (exists r,
        GET_audio (JobManager.getJob Samples.store)
                  (JobManager.getJobAudio Samples.store) "nowhere" = Normal r
        /\ NotFound r
        /\ response_bytes r = None)
  /\ resp_status (GET_status (JobManager.getJob Samples.store) "nowhere") = 404%Z
  /\ response_view (GET_status (JobManager.getJob Samples.store) "nowhere") = None.
Proof.
  split; [reflexivity|].
  exact (C7_unknown_job_is_NotFound
           (JobManager.getJob Samples.store)
           (JobManager.getJobAudio Samples.store) "nowhere" eq_refl).
Defined.

(** C8: for a job marked completed whose audio buffer is absent, the
    audio route answers with the AudioMissing response, which carries no
    bytes and differs from the NotFound response of an unknown id (by its
    message; both have status 404). *)
Theorem C8_completed_without_buffer_is_AudioMissing
    (getJob : string -> option Job) (getJobAudio : string -> option Buffer)
    (jobId : string) (job : Job) :
  getJob jobId = Some job ->
  job_status job = completed ->
  getJobAudio jobId = None ->
  exists r,
    GET_audio getJob getJobAudio jobId = Normal r
    /\ AudioMissing r
    /\ ~ NotFound r
    /\ response_bytes r = None.
Proof.
  intros Hjob Hstatus Haudio.
  rewrite (GET_audio_completed getJob getJobAudio jobId job Hjob Hstatus), Haudio.
  eexists. split; [reflexivity|].
  unfold AudioMissing, NotFound. repeat split. discriminate.
Qed.

Lemma C8_hollow_job_is_AudioMissing :
  JobManager.getJob Samples.store "hollow"
    = Some (Samples.job "hollow" completed 100 None)
  /\ JobManager.getJobAudio Samples.store "hollow" = None
  /\ exists r,
       GET_audio (JobManager.getJob Samples.store)
                 (JobManager.getJobAudio Samples.store) "hollow" = Normal r
       /\ AudioMissing r
       /\ ~ NotFound r
       /\ response_bytes r = None.
Proof.
  split; [reflexivity|]. split; [reflexivity|].
  exact (C8_completed_without_buffer_is_AudioMissing
           (JobManager.getJob Samples.store)
           (JobManager.getJobAudio Samples.store)
           "hollow" (Samples.job "hollow" completed 100 None)
           eq_refl eq_refl eq_refl).
Defined.

(** ** The job store and the pipeline *)






















(** The progress a poller sees along the sample events, and the job
    [busy], which another pipeline moved and completed meanwhile. *)
Example progress_history_of_sample_events :
  List.map (progress_of (fst (JobStore.create Samples.store)))
    (snd (JobStore.create Samples.store)
       :: history (fst (JobStore.create Samples.store)) Samples.events
            (snd (JobStore.create Samples.store)))
  = [0; 1; 1; 47; 47; 90; 91; 95; 95; 100; 100]%Z
  /\ List.map (progress_of "busy")
       (history (fst (JobStore.create Samples.store)) Samples.events
          (snd (JobStore.create Samples.store)))
     = [47; 47; 47; 48; 48; 48; 48; 100; 100; 100]%Z.
Proof. split; vm_compute; reflexivity. Qed.

(* ===================================================================== *)
(** * Further properties of the routes                                    *)
(* ===================================================================== *)

(** ** The submit handler as a whole *)

Lemma calls_CallCreate (oracle : SynthesisRequest -> Completion string)
    (req : SynthesisRequest) :
  calls oracle (CallCreate req POST_created) = [req].
Proof. simpl. now destruct (oracle req). Qed.

(** The four ways a parsed payload can go through the handler. *)
Lemma POST_outcome `{NumberConversions} (payload : JsValue) :
  let text_field := field (nullish payload (JObject ∅)) "text" in
  let voice_field := field (nullish payload (JObject ∅)) "voiceId" in
  (blank_or_not_a_string text_field
   /\ POST (Normal payload) = Done (json_message 400 "Texto inválido"))
  \/ (exists t, text_field = JString t /\ trim t <> []
                /\ (js_length t > MAX_CHARACTERS)%Z
                /\ POST (Normal payload)
                   = Done (json_message 400 "Limite de caracteres excedido"))
  \/ (exists t, text_field = JString t /\ trim t <> []
                /\ (js_length t <= MAX_CHARACTERS)%Z
                /\ nonempty_string voice_field = false
                /\ POST (Normal payload)
                   = Done (json_message 400 "Selecione uma voz"))
  \/ (exists t v, passes_validation payload t v).
Proof.
  intros text_field voice_field. subst text_field voice_field.
  destruct (field (nullish payload (JObject ∅)) "text") as [| | | |t| |] eqn:Ht;
    try (left; split;
         [intros t' Ht'; discriminate Ht'
         | apply POST_text_not_string; rewrite Ht; discriminate]).
  destruct (trim t) as [|c0 t0] eqn:Hblank.
  { left. split.
    - intros t' Ht'. injection Ht' as <-. exact Hblank.
    - now apply (POST_text_blank payload t). }
  assert (trim t <> []) as Hblank' by (rewrite Hblank; discriminate).
  destruct (Z_gt_le_dec (js_length t) MAX_CHARACTERS) as [Hlong | Hlen].
  { right; left. exists t. repeat split; auto.
    now apply (POST_text_too_long payload t). }
  destruct (nonempty_string (field (nullish payload (JObject ∅)) "voiceId"))
    eqn:Hvoice.
  - right; right; right.
    destruct (field (nullish payload (JObject ∅)) "voiceId") as [| | | |v| |] eqn:Hv;
      try discriminate Hvoice.
    destruct v as [|c1 v1]; [discriminate Hvoice|].
    exists t, (c1 :: v1). repeat split; auto; discriminate.
  - right; right; left. exists t. repeat split; auto.
    apply (POST_voice_invalid payload t Ht Hblank' Hlen).
    destruct (field (nullish payload (JObject ∅)) "voiceId") as [| | | |v| |];
      try (right; discriminate).
    destruct v as [|c1 v1]; [left; reflexivity | discriminate Hvoice].
Qed.

(** What the handler does with a payload that passes the guards. *)
Lemma POST_passes_cases `{NumberConversions} (payload : JsValue) (t v : jsstring) :
  passes_validation payload t v ->
  (exists error, POST (Normal payload) = Done (POST_catch error))
  \/ (exists s p e,
        POST (Normal payload) =
          CallCreate
            {| text := t; voiceId := v; speed := s; pitch := p; emotion := e |}
            POST_created).
Proof.
  intros Hpass. rewrite (POST_passes payload t v Hpass).
  destruct (number_or _ 1) as [s | error]; [|left; now exists error].
  destruct (number_or _ 0) as [p | error]; [|left; now exists error].
  right. now eexists _, _, _.
Qed.

(** X1: whatever the body of the request, the handler calls
    [createSynthesisJob] at most once, and only with a text that came
    from the payload as a string, is not blank and has at most 100,000
    code units, and with a voiceId that came from the payload as a
    non-empty string. *)
Theorem X1_POST_calls_only_with_validated_requests
    `{NumberConversions} (body : Completion JsValue)
    (oracle : SynthesisRequest -> Completion string) :
  calls oracle (POST body) = []
  \/ exists payload req,
       body = Normal payload
       /\ calls oracle (POST body) = [req]
       /\ field (nullish payload (JObject ∅)) "text" = JString (text req)
       /\ field (nullish payload (JObject ∅)) "voiceId" = JString (voiceId req)
       /\ trim (text req) <> []
       /\ (js_length (text req) <= 100000)%Z
       /\ voiceId req <> [].
Proof.
  destruct body as [payload | error]; [|now left].
  destruct (POST_outcome payload)
    as [[_ Hpost] | [(t & _ & _ & _ & Hpost)
       | [(t & _ & _ & _ & _ & Hpost) | (t & v & Hpass)]]];
    try (left; now rewrite Hpost).
  destruct (POST_passes_cases payload t v Hpass)
    as [[error Hpost] | (s & p & e & Hpost)].
  - left. now rewrite Hpost.
  - right. eexists payload, _. rewrite Hpost, calls_CallCreate.
    destruct Hpass as (Ht & Hblank & Hlen & Hv & Hne).
    repeat split; auto.
Qed.

(** X2: run against any implementation of [createSynthesisJob], the
    submit handler ends in one of three ways: status 400 with a message,
    no job id, and the state untouched; status 500 with a message and no
    job id; or status 202, and then [createSynthesisJob] was called on the
    starting state, returned normally, and the body is exactly the job id
    it returned. *)
Theorem X2_POST_answers_400_500_or_202
    `{NumberConversions} {S : Type}
    (createSynthesisJob : SynthesisRequest -> S -> Completion string * S)
    (body : Completion JsValue) (s : S) :
  let r := fst (run createSynthesisJob (POST body) s) in
  let s' := snd (run createSynthesisJob (POST body) s) in
  (InvalidRequest r /\ response_jobId r = None /\ s' = s)
  \/ (resp_status r = 500%Z /\ response_jobId r = None
      /\ exists message, resp_body r = MessageBody message)
  \/ (resp_status r = 202%Z
      /\ exists req jobId,
           createSynthesisJob req s = (Normal jobId, s')
           /\ resp_body r = JobIdBody jobId
           /\ response_jobId r = Some jobId).
Proof.
  intros r s'. subst r s'.
  assert (forall message,
            InvalidRequest (json_message 400 message)
            /\ response_jobId (json_message 400 message) = None /\ s = s)
    as H400.
  { intros message. destruct (json_400_InvalidRequest message). auto. }
  assert (forall error,
            resp_status (POST_catch error) = 500%Z
            /\ response_jobId (POST_catch error) = None
            /\ exists message, resp_body (POST_catch error) = MessageBody message)
    as H500.
  { intros error. repeat split. eexists. reflexivity. }
  destruct body as [payload | error]; [|right; left; apply H500].
  destruct (POST_outcome payload)
    as [[_ Hpost] | [(t & _ & _ & _ & Hpost)
       | [(t & _ & _ & _ & _ & Hpost) | (t & v & Hpass)]]];
    try (left; rewrite Hpost; apply H400).
  destruct (POST_passes_cases payload t v Hpass)
    as [[error Hpost] | (sp & p & e & Hpost)]; rewrite Hpost.
  - right; left. apply H500.
  - cbn [run].
    destruct (createSynthesisJob _ s) as [[jobId | error] s1] eqn:Hcreate.
    + right; right. split; [reflexivity|].
      eexists _, jobId. split; [exact Hcreate|]. split; reflexivity.
    + right; left. apply H500.
Qed.

(** X3: the three validation messages follow the order of the guards.
    "Texto inválido" is the answer exactly when the text is not a string
    or is blank; "Limite de caracteres excedido" exactly when the text is
    a non-blank string of more than 100,000 code units; "Selecione uma
    voz" exactly when the text is a non-blank string within the limit and
    the voiceId is not a non-empty string. *)
Theorem X3_validation_messages
    `{NumberConversions} (payload : JsValue) :
  let text_field := field (nullish payload (JObject ∅)) "text" in
  let voice_field := field (nullish payload (JObject ∅)) "voiceId" in
  (POST (Normal payload) = Done (json_message 400 "Texto inválido")
   <-> blank_or_not_a_string text_field)
  /\ (POST (Normal payload) = Done (json_message 400 "Limite de caracteres excedido")
      <-> exists t, text_field = JString t /\ trim t <> []
                    /\ (js_length t > 100000)%Z)
  /\ (POST (Normal payload) = Done (json_message 400 "Selecione uma voz")
      <-> exists t, text_field = JString t /\ trim t <> []
                    /\ (js_length t <= 100000)%Z
                    /\ nonempty_string voice_field = false).
Proof.
  intros text_field voice_field.
  pose proof (POST_outcome payload) as Hout. cbv zeta in Hout.
  fold text_field voice_field in Hout.
  change 100000%Z with MAX_CHARACTERS.
  assert (forall t v, passes_validation payload t v ->
            forall message, POST (Normal payload) <> Done (json_message 400 message))
    as Hpassed.
  { intros t v Hpass message Hpost.
    destruct (POST_passes_cases payload t v Hpass)
      as [[error Heq] | (s & p & e & Heq)]; rewrite Heq in Hpost;
      discriminate Hpost. }
  destruct Hout
    as [[Hblank Hpost] | [(t & Ht & Hblank & Hlong & Hpost)
       | [(t & Ht & Hblank & Hlen & Hvoice & Hpost) | (t & v & Hpass)]]].
  - rewrite Hpost. split; [|split].
    + split; auto.
    + split; [discriminate|]. intros (t & Ht & Hne & _).
      exfalso. apply Hne. now apply Hblank.
    + split; [discriminate|]. intros (t & Ht & Hne & _).
      exfalso. apply Hne. now apply Hblank.
  - rewrite Hpost. split; [|split].
    + split; [discriminate|]. intros Hb. exfalso. now apply Hblank, Hb.
    + split; [|reflexivity]. intros _. now exists t.
    + split; [discriminate|]. intros (t' & Ht' & _ & Hlen & _).
      assert (t' = t) as -> by congruence. lia.
  - rewrite Hpost. split; [|split].
    + split; [discriminate|]. intros Hb. exfalso. now apply Hblank, Hb.
    + split; [discriminate|]. intros (t' & Ht' & _ & Hlong).
      assert (t' = t) as -> by congruence. lia.
    + split; [|reflexivity]. intros _. now exists t.
  - pose proof (Hpassed t v Hpass) as Hnot.
    destruct Hpass as (Ht & Hblank & Hlen & Hv & Hne).
    split; [|split]; (split; [intros Hpost; now apply Hnot in Hpost|]).
    + intros Hb. exfalso. now apply Hblank, Hb.
    + intros (t' & Ht' & _ & Hlong). unfold text_field in Ht'.
      assert (t' = t) as -> by congruence. lia.
    + intros (t' & _ & _ & _ & Hvoice). exfalso.
      unfold voice_field in Hvoice. rewrite Hv in Hvoice.
      destruct v; [now apply Hne | discriminate Hvoice].
Qed.

(** X4: a JSON body that is not an object ([null], a boolean, a number,
    a string or an array) does not make the handler throw: it is answered
    400 "Texto inválido" and no job is created. *)
Theorem X4_non_object_payload_is_invalid_text
    `{NumberConversions} (payload : JsValue)
    (oracle : SynthesisRequest -> Completion string) :
  match payload with
  | JObject _ => True
  | _ =>
      POST (Normal payload) = Done (json_message 400 "Texto inválido")
      /\ calls oracle (POST (Normal payload)) = []
  end.
Proof. destruct payload; try exact I; split; reflexivity. Qed.

(** X5: the handler reads nothing but [text], [voiceId], [speed],
    [pitch] and [emotion]: two payloads that agree on these five
    properties get the same run, whatever else they hold. *)
Theorem X5_POST_reads_five_properties
    `{NumberConversions} (p q : JsValue) :
  same_submission p q -> POST (Normal p) = POST (Normal q).
Proof.
  intros Hsame. unfold POST. cbv zeta.
  rewrite !(Hsame _) by (unfold submitted_fields; simpl; tauto).
  reflexivity.
Qed.

Lemma X5_extra_properties_are_ignored :
  same_submission Samples.hello MoreSamples.hello_with_extras
  /\ forall conversions : NumberConversions,
       POST (Normal Samples.hello) = POST (Normal MoreSamples.hello_with_extras).
Proof.
  assert (same_submission Samples.hello MoreSamples.hello_with_extras) as Hsame.
  { intros name Hin. unfold submitted_fields in Hin. simpl in Hin.
    destruct Hin as [<- | [<- | [<- | [<- | [<- | []]]]]]; reflexivity. }
  split; [exact Hsame|].
  intros conversions.
  exact (X5_POST_reads_five_properties
           Samples.hello MoreSamples.hello_with_extras Hsame).
Defined.

(** ** The audio route and the status route together *)





(* ===================================================================== *)
(** * The client module against the routes                                *)
(* ===================================================================== *)

Lemma request_payload_fields (values : FormValues) :
  let payload := nullish (request_payload values) (JObject ∅) in
  field payload "text" = JString (form_text values)
  /\ field payload "voiceId" = JString (form_voiceId values)
  /\ field payload "speed" = wire_number (form_speed values)
  /\ field payload "pitch" = wire_number (form_pitch values)
  /\ field payload "emotion" = JString (form_emotion values).
Proof. repeat split. Qed.

(** A number of the form as the submit handler coerces it: itself when
    finite (negative zero as zero), the default otherwise. *)
Lemma number_or_wire `{NumberConversions} (x dflt : float) :
  number_or (wire_number x) dflt
  = Normal (if PrimFloat.is_finite x
            then (if PrimFloat.is_zero x then 0%float else x)
            else dflt).
Proof. unfold wire_number. now destruct (PrimFloat.is_finite x). Qed.

Lemma truthy_trim_true (t : jsstring) :
  truthy (JString (trim t)) = true <-> trim t <> [].
Proof. simpl. destruct (trim t); split; congruence. Qed.

(** The text message is the answer only to a text that is blank or not
    a string. *)
Lemma POST_text_message `{NumberConversions} (payload : JsValue) :
  POST (Normal payload) = Done (json_message 400 "Texto inválido") ->
  blank_or_not_a_string (field (nullish payload (JObject ∅)) "text").
Proof.
  intros Hpost.
  destruct (POST_outcome payload)
    as [[Hblank _] | [(t & _ & _ & _ & Heq)
       | [(t & _ & _ & _ & _ & Heq) | (t & v & Hpass)]]];
    [exact Hblank | | |]; try (rewrite Heq in Hpost; discriminate Hpost).
  destruct (POST_passes_cases payload t v Hpass)
    as [[error Heq] | (s & p & e & Heq)]; rewrite Heq in Hpost;
    discriminate Hpost.
Qed.

(** X8: [onSubmit] sends nothing for a blank text and leaves the state
    as it is; what it does send is the form's values as JSON, and the
    submit handler never answers such a body with "Texto inválido". *)
Theorem X8_client_never_sends_a_blank_text
    `{NumberConversions} (outcome : SubmitOutcome) (values : FormValues)
    (st : ModuleState) :
  (trim (form_text values) = [] -> onSubmit outcome values st = (st, None))
  /\ (forall body,
        snd (onSubmit outcome values st) = Some body ->
        body = request_payload values
        /\ trim (form_text values) <> []
        /\ POST (Normal body) <> Done (json_message 400 "Texto inválido")).
Proof.
  split.
  - intros Hblank. unfold onSubmit. now rewrite Hblank.
  - intros body Hsent. unfold onSubmit in Hsent.
    destruct (truthy (JString (trim (form_text values)))) eqn:Htext;
      simpl in Hsent; [|discriminate Hsent].
    injection Hsent as <-.
    apply truthy_trim_true in Htext.
    split; [reflexivity|]. split; [exact Htext|].
    intros Hpost.
    apply POST_text_message in Hpost. apply Htext, Hpost. reflexivity.
Qed.

Lemma form_passes_validation (values : FormValues) :
  trim (form_text values) <> [] ->
  (js_length (form_text values) <= MAX_CHARACTERS)%Z ->
  form_voiceId values <> [] ->
  passes_validation (request_payload values)
    (form_text values) (form_voiceId values).
Proof. intros Hblank Hlen Hvoice. repeat split; assumption. Qed.

Lemma POST_of_valid_form `{NumberConversions} (values : FormValues) :
  trim (form_text values) <> [] ->
  (js_length (form_text values) <= MAX_CHARACTERS)%Z ->
  form_voiceId values <> [] ->
  POST (Normal (request_payload values))
  = CallCreate (arriving_request values) POST_created.
Proof.
  intros Hblank Hlen Hvoice.
  rewrite (POST_passes _ _ _ (form_passes_validation values Hblank Hlen Hvoice)).
  destruct (request_payload_fields values) as (_ & _ & -> & -> & ->).
  now rewrite !number_or_wire.
Qed.

(** X9: a form whose text is not blank and within 100,000 code units
    and whose voice is chosen always reaches [createSynthesisJob], with
    the form's text, voice and emotion and with its speed and pitch, a
    NaN or infinite one replaced by the default 1 or 0.  If the call
    returns a job id, the client stores that id, shows the job as queued
    and resets its audio; if the call throws, no id is stored and the
    client shows the job as failed with the server's message. *)
Theorem X9_valid_form_creates_the_job
    `{NumberConversions} {S : Type}
    (createSynthesisJob : SynthesisRequest -> S -> Completion string * S)
    (values : FormValues) (s : S) (st : ModuleState) :
  trim (form_text values) <> [] ->
  (js_length (form_text values) <= 100000)%Z ->
  form_voiceId values <> [] ->
  let body := request_payload values in
  let r := fst (run createSynthesisJob (POST (Normal body)) s) in
  calls (fun req => fst (createSynthesisJob req s)) (POST (Normal body))
    = [arriving_request values]
  /\ snd (run createSynthesisJob (POST (Normal body)) s)
     = snd (createSynthesisJob (arriving_request values) s)
  /\ match fst (createSynthesisJob (arriving_request values) s) with
     | Normal jobId =>
         submit_outcome r = Some (SubmitAccepted (Some jobId))
         /\ onSubmit (SubmitAccepted (Some jobId)) values st
            = (submit_accepted jobId, Some body)
     | Throw error =>
         let message :=
           match error with
           | ThrownError message => message
           | ThrownOther => "Erro ao criar job de síntese"%string
           end in
         submit_outcome r = Some (SubmitRejected (Some message))
         /\ onSubmit (SubmitRejected (Some message)) values st
            = (submit_failed message st, Some body)
     end.
Proof.
  intros Hblank Hlen Hvoice body r. subst body r.
  assert (truthy (JString (trim (form_text values))) = true) as Htext
    by now apply truthy_trim_true.
  rewrite (POST_of_valid_form values Hblank Hlen Hvoice).
  rewrite calls_CallCreate. cbn [run].
  destruct (createSynthesisJob (arriving_request values) s)
    as [[jobId | error] s1]; cbn [fst snd run POST_created].
  - repeat split. unfold onSubmit. now rewrite Htext.
  - repeat split. unfold onSubmit. now rewrite Htext.
Qed.

Lemma X9_hello_form_with_NaN_speed :
  (trim (form_text FormSamples.hello_nan) <> []
   /\ (js_length (form_text FormSamples.hello_nan) <= 100000)%Z
   /\ form_voiceId FormSamples.hello_nan <> [])
  /\ speed (arriving_request FormSamples.hello_nan) = 1%float
  /\ forall conversions : NumberConversions,
       calls (fun req => fst (JobManager.createSynthesisJob req Samples.store))
             (POST (Normal (request_payload FormSamples.hello_nan)))
       = [arriving_request FormSamples.hello_nan].
Proof.
  assert (trim (form_text FormSamples.hello_nan) <> []) as Hblank
    by (vm_compute; discriminate).
  assert (js_length (form_text FormSamples.hello_nan) <= 100000)%Z as Hlen
    by (vm_compute; discriminate).
  assert (form_voiceId FormSamples.hello_nan <> []) as Hvoice
    by (vm_compute; discriminate).
  split; [auto|]. split; [reflexivity|].
  intros conversions.
  exact (proj1 (X9_valid_form_creates_the_job
                  JobManager.createSynthesisJob FormSamples.hello_nan
                  Samples.store FormSamples.mounted Hblank Hlen Hvoice)).
Defined.

(** ** The poller *)

Lemma poller_run_cons (e : PollerEvent) (rest : list PollerEvent)
    (eff : PollingEffect) (st : ModuleState) :
  poller_run (e :: rest) eff st
  = (poller_effect
       (poller_run rest (poller_effect (poller_step e eff st))
                        (poller_state (poller_step e eff st))),
     poller_state
       (poller_run rest (poller_effect (poller_step e eff st))
                        (poller_state (poller_step e eff st))),
     poller_calls (poller_step e eff st)
       ++ poller_calls
            (poller_run rest (poller_effect (poller_step e eff st))
                             (poller_state (poller_step e eff st)))).
Proof.
  cbn [poller_run]. unfold poller_effect, poller_state, poller_calls.
  destruct (poller_step e eff st) as [[eff1 st1] emitted1]. simpl.
  destruct (poller_run rest eff1 st1) as [[eff2 st2] emitted2]. reflexivity.
Qed.

(** One event calls [onAudioReady] at most once, never when the ref is
    already set, and sets the ref when it calls; the ref is never reset. *)
Lemma poller_step_emits (e : PollerEvent) (eff : PollingEffect) (st : ModuleState) :
  (hasEmittedAudio st = true ->
   poller_calls (poller_step e eff st) = []
   /\ hasEmittedAudio (poller_state (poller_step e eff st)) = true)
  /\ (hasEmittedAudio st = false ->
      poller_calls (poller_step e eff st) = []
      \/ (exists call, poller_calls (poller_step e eff st) = [call])
         /\ hasEmittedAudio (poller_state (poller_step e eff st)) = true).
Proof.
  destruct e as [[| | |data]|]; cbn [poller_step on_poll];
    try (split; intros Href; [split; [reflexivity | exact Href] | now left]).
  destruct (isCancelled eff);
    [split; intros Href; [split; [reflexivity | exact Href] | now left]|].
  destruct (view_status data), (view_downloadUrl data) as [[|c url]|];
    cbn [poller_calls poller_state fst snd hasEmittedAudio];
    try (split; intros Href; [split; [reflexivity | exact Href] | now left]).
  split; intros Href; rewrite Href.
  - split; reflexivity.
  - right. split; [eexists; reflexivity | reflexivity].
Qed.

(** X11: along any sequence of polls and restarts of the effect,
    [onAudioReady] is called at most once, and not at all when the
    [hasEmittedAudio] ref is already set; whenever it was called the ref
    is set afterwards. *)
Theorem X11_onAudioReady_fires_at_most_once
    (events : list PollerEvent) (eff : PollingEffect) (st : ModuleState) :
  (List.length (poller_calls (poller_run events eff st)) <= 1)%nat
  /\ (hasEmittedAudio st = true ->
      poller_calls (poller_run events eff st) = []
      /\ hasEmittedAudio (poller_state (poller_run events eff st)) = true)
  /\ (poller_calls (poller_run events eff st) <> [] ->
      hasEmittedAudio (poller_state (poller_run events eff st)) = true).
Proof.
  revert eff st.
  assert (forall events eff st,
            hasEmittedAudio st = true ->
            poller_calls (poller_run events eff st) = []
            /\ hasEmittedAudio (poller_state (poller_run events eff st)) = true)
    as Hset.
  { intros evs. induction evs as [|e rest IH]; intros eff st Href.
    - split; [reflexivity | exact Href].
    - rewrite poller_run_cons.
      destruct (poller_step_emits e eff st) as [Hstep _].
      destruct (Hstep Href) as [Hnone Href'].
      destruct (IH (poller_effect (poller_step e eff st)) _ Href') as [Hrest Hlast].
      cbn [poller_calls poller_state fst snd]. rewrite Hnone, Hrest.
      split; [reflexivity | exact Hlast]. }
  induction events as [|e rest IH]; intros eff st.
  - split; [simpl; lia|]. split; [now apply (Hset [])|]. intros Hcalls.
    now contradiction Hcalls.
  - split; [|split]; [| now apply Hset |].
    + rewrite poller_run_cons. cbn [poller_calls snd]. rewrite length_app.
      destruct (hasEmittedAudio st) eqn:Href.
      * destruct (Hset (e :: rest) eff st Href) as [Hnone _].
        rewrite poller_run_cons in Hnone. cbn [poller_calls snd] in Hnone.
        apply (f_equal (@List.length _)) in Hnone.
        rewrite length_app in Hnone. simpl in Hnone. lia.
      * destruct (poller_step_emits e eff st) as [_ Hstep].
        destruct (Hstep Href) as [Hnone | [[call Hone] Href']].
        -- rewrite Hnone. simpl.
           now destruct (IH (poller_effect (poller_step e eff st))
                            (poller_state (poller_step e eff st))).
        -- rewrite Hone.
           destruct (Hset rest (poller_effect (poller_step e eff st)) _ Href')
             as [Hrest _].
           rewrite Hrest. simpl. lia.
    + rewrite poller_run_cons. cbn [poller_calls poller_state fst snd].
      intros Hcalls.
      destruct (hasEmittedAudio st) eqn:Href.
      * destruct (Hset (e :: rest) eff st Href) as [_ Hlast].
        now rewrite poller_run_cons in Hlast.
      * destruct (poller_step_emits e eff st) as [_ Hstep].
        destruct (Hstep Href) as [Hnone | [_ Href']].
        -- rewrite Hnone in Hcalls. simpl in Hcalls.
           now apply (IH (poller_effect (poller_step e eff st))
                         (poller_state (poller_step e eff st))).
        -- now apply (Hset rest).
Qed.

(** The sample events: the finished job is seen twice, the callback is
    called once, with the advertised URL. *)
Example finished_twice_calls_once :
  poller_calls
    (poller_run PollSamples.finished_twice effect_started FormSamples.polling)
  = [ {| ready_url := "/api/tts/done/audio"; ready_duration := Some 1%float |} ].
Proof. reflexivity. Qed.

(** X12: a poll that ends in an error (the fetch fails, the response is
    not ok, its body is not JSON) changes nothing and leaves the interval
    running, and so does any poll of an effect that was cancelled.  A
    poll of a live effect that brings data stores the data as the job
    status and clears the interval exactly when the data say [failed], or
    [completed] with a download URL that is not empty. *)
Theorem X12_when_polling_stops
    (o : PollOutcome) (eff : PollingEffect) (st : ModuleState) :
  (match o with
   | PollData data =>
       isCancelled eff = false ->
       jobStatus (poller_state (on_poll o eff st)) = Some data
       /\ jobId_cell (poller_state (on_poll o eff st)) = jobId_cell st
       /\ (intervalCleared (poller_effect (on_poll o eff st)) = true
           <-> intervalCleared eff = true \/ stops_polling data = true)
   | _ => on_poll o eff st = (eff, st, [])
   end)
  /\ (isCancelled eff = true -> on_poll o eff st = (eff, st, [])).
Proof.
  split.
  - destruct o as [| | |data]; try reflexivity.
    intros Hlive. unfold on_poll, stops_polling. rewrite Hlive.
    destruct (view_status data), (view_downloadUrl data) as [[|c url]|];
      cbn [poller_state poller_effect fst snd jobStatus jobId_cell
           clearInterval intervalCleared];
      (split; [reflexivity|]); (split; [reflexivity|]);
      split; intros Hcleared; auto;
      destruct Hcleared as [Hcleared | Hstop]; auto; discriminate Hstop.
  - intros Hcancelled. destruct o as [| | |data]; try reflexivity.
    unfold on_poll. now rewrite Hcancelled.
Qed.

Lemma poll_of_existing_job (getJob : string -> option Job) (jobId : string)
    (job : Job) :
  getJob jobId = Some job ->
  poll_outcome (GET_status getJob jobId)
  = Some (PollData
            {| view_status := job_status job;
               view_progress := job_progress job;
               view_error := job_error job;
               view_downloadUrl :=
                 if JobStatus_eqb (job_status job) completed
                 then Some ("/api/tts/" +:+ job_id job +:+ "/audio")%string
                 else None;
               view_duration := wire_duration (job_duration job) |}).
Proof. intros Hjob. unfold GET_status. now rewrite Hjob. Qed.

(** X13: the poller against the status route.  For an unknown job id the
    route's 404 leaves the poller's state and its interval untouched, so
    the client keeps polling and never shows an error.  For an existing
    job a poll of a live effect shows the job's status and progress and
    clears the interval exactly when the job is terminal; when the job is
    completed the audio URL becomes the route's download URL, built from
    the job's own [id], and [onAudioReady] is called with it unless it was
    called before; otherwise the audio URL stays as it was and nothing is
    called. *)
Theorem X13_poller_against_the_status_route
    (getJob : string -> option Job) (jobId : string) (st : ModuleState) :
  match getJob jobId with
  | None =>
      poll_outcome (GET_status getJob jobId) = Some PollNotOk
      /\ on_poll PollNotOk effect_started st = (effect_started, st, [])
  | Some job =>
      exists data,
        poll_outcome (GET_status getJob jobId) = Some (PollData data)
        /\ let out := on_poll (PollData data) effect_started st in
           jobStatus (poller_state out) = Some data
           /\ view_status data = job_status job
           /\ view_progress data = job_progress job
           /\ view_error data = job_error job
           /\ (intervalCleared (poller_effect out) = true
               <-> terminal (job_status job) = true)
           /\ (job_status job = completed ->
               audioUrl (poller_state out)
                 = Some ("/api/tts/" +:+ job_id job +:+ "/audio")%string
               /\ hasEmittedAudio (poller_state out) = true
               /\ poller_calls out
                  = if hasEmittedAudio st then []
                    else [ {| ready_url :=
                                ("/api/tts/" +:+ job_id job +:+ "/audio")%string;
                              ready_duration := wire_duration (job_duration job) |} ])
           /\ (job_status job <> completed ->
               audioUrl (poller_state out) = audioUrl st
               /\ hasEmittedAudio (poller_state out) = hasEmittedAudio st
               /\ poller_calls out = [])
  end.
Proof.
  destruct (getJob jobId) as [job|] eqn:Hjob.
  - eexists. split; [exact (poll_of_existing_job getJob jobId job Hjob)|].
    cbv zeta. unfold on_poll.
    cbn [effect_started isCancelled view_status view_downloadUrl view_progress
         view_error view_duration].
    destruct (job_status job);
      cbn [JobStatus_eqb terminal String.append];
      cbn [poller_state poller_effect poller_calls fst snd jobStatus audioUrl
           hasEmittedAudio clearInterval intervalCleared effect_started];
      repeat split; try discriminate; try reflexivity;
      try (intros; match goal with
                   | Hnot : ?x <> ?x |- _ => now contradiction Hnot
                   end).
  - split; [|reflexivity]. unfold GET_status. now rewrite Hjob.
Qed.
